(** * SunPy time-series sources: EVE level-0CS / averages and NoRH parsers

    A shallow embedding of [sunpy/timeseries/sources/eve.py] and
    [sunpy/timeseries/sources/norh.py].

    Byte strings are [string]; exceptions are an explicit result type;
    [OrderedDict] is an association list that keeps insertion order; the
    file handle [fp] is the list of lines still to be read; class
    attributes and standard output are threaded as an explicit [World].
    Calls into pandas, numpy and astropy are modelled by the part of their
    documented behaviour that the two modules rely on. *)

From Stdlib Require Import String Ascii List ZArith QArith Qround Lia Bool.
Import ListNotations.

Local Open Scope string_scope.
Local Open Scope Z_scope.

(** ** Exceptions and the error monad *)

Inductive exn : Type :=
| IndexError
| KeyError
| ValueError
| TypeError
| ZeroDivisionError
| OverflowError
| ParserError.

Inductive res (A : Type) : Type :=
| Ok (a : A)
| Raise (e : exn).

Arguments Ok {A} a.
Arguments Raise {A} e.

Definition bind {A B : Type} (m : res A) (k : A -> res B) : res B :=
  match m with
  | Ok a => k a
  | Raise e => Raise e
  end.

Notation "x <- m ;; k" := (bind m (fun x => k))
  (at level 61, m at next level, right associativity).

Definition of_option {A : Type} (e : exn) (o : option A) : res A :=
  match o with
  | Some a => Ok a
  | None => Raise e
  end.

(** [[f(x) for x in l]] where [f] may raise: the first exception wins. *)
Fixpoint mapM {A B : Type} (f : A -> res B) (l : list A) : res (list B) :=
  match l with
  | [] => Ok []
  | x :: xs => y <- f x ;; ys <- mapM f xs ;; Ok (y :: ys)
  end.

(** ** Python byte-string primitives *)

Module Py.

Definition bytes := string.

(** [s.startswith(p)] *)
Fixpoint startswith (p s : bytes) : bool :=
  match p with
  | EmptyString => true
  | String a p' =>
      match s with
      | EmptyString => false
      | String b s' => Ascii.eqb a b && startswith p' s'
      end
  end.

(** [needle in hay] *)
Fixpoint contains (needle hay : bytes) : bool :=
  startswith needle hay ||
  match hay with
  | EmptyString => false
  | String _ hay' => contains needle hay'
  end.

(** [s.split(c)] for a one-byte separator: the first piece and the
    pieces after it, so the result is never empty. *)
Fixpoint split_pieces (c : ascii) (s : bytes) : bytes * list bytes :=
  match s with
  | EmptyString => (EmptyString, [])
  | String a s' =>
      let (h, t) := split_pieces c s' in
      if Ascii.eqb a c then (EmptyString, h :: t) else (String a h, t)
  end.

Definition split (c : ascii) (s : bytes) : list bytes :=
  let (h, t) := split_pieces c s in h :: t.

(** [s.split(c, 1)]: the text before the first [c] and, when there is
    one, the whole text after it. *)
Fixpoint split_once (c : ascii) (s : bytes) : bytes * option bytes :=
  match s with
  | EmptyString => (EmptyString, None)
  | String a s' =>
      if Ascii.eqb a c then (EmptyString, Some s')
      else let (h, t) := split_once c s' in (String a h, t)
  end.

Definition split1 (c : ascii) (s : bytes) : list bytes :=
  match split_once c s with
  | (h, None) => [h]
  | (h, Some t) => [h; t]
  end.

(** [l[i]] *)
Definition index {A : Type} (l : list A) (i : nat) : res A :=
  of_option IndexError (nth_error l i).

(** [s.replace(a, b)] for one-byte [a] and [b] *)
Fixpoint replace (a b : ascii) (s : bytes) : bytes :=
  match s with
  | EmptyString => EmptyString
  | String c s' => String (if Ascii.eqb c a then b else c) (replace a b s')
  end.

(** ASCII whitespace, as removed by [bytes.strip()]:
    space, tab, newline, vertical tab, form feed, carriage return. *)
Definition is_space (c : ascii) : bool :=
  let n := nat_of_ascii c in
  (Nat.eqb n 32 || (Nat.leb 9 n && Nat.leb n 13))%bool.

Fixpoint lstrip (s : bytes) : bytes :=
  match s with
  | EmptyString => EmptyString
  | String c s' => if is_space c then lstrip s' else s
  end.

Fixpoint rstrip (s : bytes) : bytes :=
  match s with
  | EmptyString => EmptyString
  | String c s' =>
      match rstrip s' with
      | EmptyString => if is_space c then EmptyString else String c EmptyString
      | r => String c r
      end
  end.

Definition strip (s : bytes) : bytes := rstrip (lstrip s).

(** Slices [s[:n]], [s[n:]] and [s[a:b]]; out-of-range bounds clip. *)
Fixpoint take (n : nat) (s : bytes) : bytes :=
  match n, s with
  | S n', String c s' => String c (take n' s')
  | _, _ => EmptyString
  end.

Fixpoint drop (n : nat) (s : bytes) : bytes :=
  match n, s with
  | S n', String _ s' => drop n' s'
  | _, _ => s
  end.

Definition slice (a b : nat) (s : bytes) : bytes := take (b - a) (drop a s).

(** [s.split()] without argument: the maximal runs of non-whitespace. *)
Fixpoint words_aux (cur : bytes) (s : bytes) : list bytes :=
  match s with
  | EmptyString =>
      match cur with EmptyString => [] | _ => [cur] end
  | String c s' =>
      if is_space c then
        match cur with
        | EmptyString => words_aux EmptyString s'
        | _ => cur :: words_aux EmptyString s'
        end
      else words_aux (cur ++ String c EmptyString) s'
  end.

Definition words (s : bytes) : list bytes := words_aux EmptyString s.

(** Decimal digits *)
Definition digit_val (c : ascii) : option Z :=
  let n := nat_of_ascii c in
  if (Nat.leb 48 n && Nat.leb n 57)%bool then Some (Z.of_nat (n - 48)) else None.

Fixpoint digits_acc (acc : Z) (s : bytes) : option Z :=
  match s with
  | EmptyString => Some acc
  | String c s' =>
      match digit_val c with
      | Some d => digits_acc (10 * acc + d) s'
      | None => None
      end
  end.

(** A non-empty run of decimal digits *)
Definition digits (s : bytes) : option Z :=
  match s with
  | EmptyString => None
  | _ => digits_acc 0 s
  end.

(** An optional sign in front of [s] *)
Definition signed (s : bytes) : Z * bytes :=
  match s with
  | String "+" s' => (1, s')
  | String "-" s' => (-1, s')
  | _ => (1, s)
  end.

(** [int(s)] on a byte string, base 10: surrounding whitespace is
    ignored, one sign is allowed, then only digits (the digit separators
    of later Python versions are left out). *)
Definition int (s : bytes) : res Z :=
  let (sg, body) := signed (strip s) in
  match digits body with
  | Some n => Ok (sg * n)
  | None => Raise ValueError
  end.

(** [os.path.basename(p)]: what follows the last slash. *)
Fixpoint basename (p : bytes) : bytes :=
  match p with
  | EmptyString => EmptyString
  | String c p' =>
      if contains "/" p' then basename p'
      else if Ascii.eqb c "/" then p' else p
  end.

End Py.

(** ** Floating-point values

    A Python [float] is modelled by its exact rational value or one of the
    three special values.  Rounding is not modelled: every number used in a
    concrete evaluation below is a small dyadic rational, which binary
    floating point represents exactly. *)

Inductive pyfloat : Type :=
| Fin (q : Q)
| PInf
| NInf
| NaN.

Module Float.

(** [a == b] on floats; [nan] equals nothing, itself included. *)
Definition eqb (a b : pyfloat) : bool :=
  match a, b with
  | Fin x, Fin y => Qeq_bool x y
  | PInf, PInf => true
  | NInf, NInf => true
  | _, _ => false
  end.

(** [m * 10 ** e] *)
Definition scale10 (m e : Z) : Q :=
  if 0 <=? e then inject_Z (m * 10 ^ e)
  else Qmake m (Z.to_pos (10 ^ (- e))).

Definition lower (c : ascii) : ascii :=
  let n := nat_of_ascii c in
  if (Nat.leb 65 n && Nat.leb n 90)%bool then ascii_of_nat (n + 32) else c.

Fixpoint lowercase (s : string) : string :=
  match s with
  | EmptyString => EmptyString
  | String c s' => String (lower c) (lowercase s')
  end.

(** The exponent part: empty, or [e]/[E], an optional sign and digits. *)
Definition exponent (s : string) : option Z :=
  match s with
  | EmptyString => Some 0
  | String c s' =>
      if Ascii.eqb (lower c) "e" then
        let (sg, body) := Py.signed s' in
        option_map (Z.mul sg) (Py.digits body)
      else None
  end.

(** Splits [s] into its leading digits and the rest. *)
Fixpoint span_digits (s : string) : string * string :=
  match s with
  | EmptyString => (EmptyString, EmptyString)
  | String c s' =>
      match Py.digit_val c with
      | Some _ => let (d, r) := span_digits s' in (String c d, r)
      | None => (EmptyString, s)
      end
  end.

(** An unsigned decimal literal: digits, an optional fraction, an
    optional exponent, with at least one digit in the mantissa. *)
Definition decimal (s : string) : option Q :=
  let (ip, r1) := span_digits s in
  let (fp, r2) :=
    match r1 with
    | String "." r => span_digits r
    | _ => (EmptyString, r1)
    end in
  match (ip ++ fp)%string with
  | EmptyString => None
  | mant =>
      match Py.digits_acc 0 mant, exponent r2 with
      | Some m, Some e => Some (scale10 m (e - Z.of_nat (String.length fp)))
      | _, _ => None
      end
  end.

(** [float(s)] on a byte string. *)
Definition of_bytes (s : string) : res pyfloat :=
  let (sg, body) := Py.signed (Py.strip s) in
  let low := lowercase body in
  if (String.eqb low "inf" || String.eqb low "infinity")%bool
  then Ok (if sg =? 1 then PInf else NInf)
  else if String.eqb low "nan" then Ok NaN
  else match decimal body with
       | Some q => Ok (Fin (inject_Z sg * q))
       | None => Raise ValueError
       end.

(** [n / c] for a Python [int] [n] and a Python [float] [c]. *)
Definition int_div (n : Z) (c : pyfloat) : res pyfloat :=
  match c with
  | Fin q => if Qeq_bool q 0 then Raise ZeroDivisionError
             else Ok (Fin (inject_Z n / q))
  | PInf | NInf => Ok (Fin 0)
  | NaN => Ok NaN
  end.

(** [int(x)]: truncation toward zero. *)
Definition truncate (q : Q) : Z := Z.quot (Qnum q) (Zpos (Qden q)).

Definition to_int (x : pyfloat) : res Z :=
  match x with
  | Fin q => Ok (truncate q)
  | PInf | NInf => Raise OverflowError
  | NaN => Raise ValueError
  end.

End Float.

(** ** [collections.OrderedDict] *)

Module OrderedDict.

Definition t (V : Type) : Type := list (string * V).

Definition empty {V : Type} : t V := [].

Fixpoint get {V : Type} (k : string) (d : t V) : option V :=
  match d with
  | [] => None
  | (k', v) :: d' => if String.eqb k' k then Some v else get k d'
  end.

(** [d[k] = v]: an existing key keeps its position, a new key goes last. *)
Fixpoint set {V : Type} (k : string) (v : V) (d : t V) : t V :=
  match d with
  | [] => [(k, v)]
  | (k', v') :: d' =>
      if String.eqb k' k then (k, v) :: d' else (k', v') :: set k v d'
  end.

(** [d[k]] *)
Definition item {V : Type} (k : string) (d : t V) : res V :=
  of_option KeyError (get k d).

Definition keys {V : Type} (d : t V) : list string := map fst d.

End OrderedDict.

(** ** [datetime.datetime] *)

Record datetime : Type := mk_datetime {
  year : Z;
  month : Z;
  day : Z;
  hour : Z;
  minute : Z;
  second : Z
}.

Module Datetime.

Definition is_leap (y : Z) : bool :=
  ((y mod 4 =? 0) && (negb (y mod 100 =? 0) || (y mod 400 =? 0)))%bool.

Definition days_in_month (y m : Z) : Z :=
  if m =? 2 then (if is_leap y then 29 else 28)
  else if (m =? 4) || (m =? 6) || (m =? 9) || (m =? 11) then 30
  else 31.

Definition valid (y mo d h mi : Z) : bool :=
  ((1 <=? y) && (y <=? 9999) &&
   (1 <=? mo) && (mo <=? 12) &&
   (1 <=? d) && (d <=? days_in_month y mo) &&
   (0 <=? h) && (h <=? 23) &&
   (0 <=? mi) && (mi <=? 59))%bool.

(** [datetime(y, mo, d, h, mi)]: out-of-range fields raise [ValueError]. *)
Definition make (y mo d h mi : Z) : res datetime :=
  if valid y mo d h mi then Ok (mk_datetime y mo d h mi 0)
  else Raise ValueError.

End Datetime.

(** ** [pandas.DataFrame]

    A frame is its row index, its column labels (names, or positions when
    no names were given) and its cells, one list of cells per row.  A cell
    of a numeric column is a float; a cell of an object column is the text
    of its token, or [nan] where there is no value. *)

Inductive label : Type :=
| Name (s : string)
| Pos (n : nat).

Inductive cell : Type :=
| Num (x : pyfloat)
| Str (s : string).

Record DataFrame (I : Type) : Type := mk_frame {
  index : list I;
  columns : list label;
  values : list (list cell)
}.

Arguments mk_frame {I} index columns values.
Arguments index {I} d.
Arguments columns {I} d.
Arguments values {I} d.

Module Frame.

(** [data[data == x] = numpy.nan]: every cell that compares equal to the
    float [x] becomes [nan]; a text cell never compares equal to a float;
    the index is not touched. *)
Definition mask_cell (x : pyfloat) (c : cell) : cell :=
  match c with
  | Num y => if Float.eqb y x then Num NaN else c
  | Str _ => c
  end.

Definition mask_eq {I : Type} (x : pyfloat) (d : DataFrame I) : DataFrame I :=
  mk_frame (index d) (columns d) (map (map (mask_cell x)) (values d)).

End Frame.

(** ** [astropy.units] descriptors used by the two sources *)

Inductive unit_t : Type :=
| dimensionless_unscaled
| W_per_m2
| ct.

(** ** The process state a parse can touch *)

Record World : Type := mk_world {
  EVELightCurve_filename : option string;
  stdout : list string
}.

Definition M (A : Type) : Type := World -> res A * World.

Definition ret {A : Type} (a : A) : M A := fun w => (Ok a, w).

Definition lift {A : Type} (r : res A) : M A := fun w => (r, w).

Definition seq_ {A : Type} (m : M unit) (k : M A) : M A :=
  fun w =>
    match m w with
    | (Ok _, w') => k w'
    | (Raise e, w') => (Raise e, w')
    end.

Notation "m >> k" := (seq_ m k) (at level 62, right associativity).

(** [print(s)] *)
Definition print (s : string) : M unit :=
  fun w => (Ok tt, mk_world (EVELightCurve_filename w) (stdout w ++ [s])).

(** The line feed byte, and [s] followed by it. *)
Definition LF : string := String "010"%char EmptyString.

Definition nl (s : string) : string := (s ++ LF)%string.

(** ** The file handle: the lines not yet read, each with its line feed *)

Fixpoint readlines (s : string) : list string :=
  match s with
  | EmptyString => []
  | String c s' =>
      if Ascii.eqb c "010" then String c EmptyString :: readlines s'
      else match readlines s' with
           | [] => [String c EmptyString]
           | l :: ls => String c l :: ls
           end
  end.

(** [fp.readline()]: the next line, or the empty string at end of file. *)
Definition readline (fp : list string) : string * list string :=
  match fp with
  | [] => (EmptyString, [])
  | l :: fp' => (l, fp')
  end.

(** ** [sunpy/timeseries/sources/eve.py] *)

Module EVELightCurve.

(** What [_parse_file] hands back: nothing, the pair of the averages
    parser, or the triple of the level-0CS parser. *)
Inductive result : Type :=
| PyNone
| Tuple2 (a : string) (b : DataFrame datetime)
| Tuple3 (data : DataFrame datetime) (meta : OrderedDict.t string)
         (units : OrderedDict.t unit_t).

(** [missing_data_val] starts as [numpy.nan] and becomes a byte string. *)
Inductive missing_val : Type :=
| NumpyNan
| Bytes (b : string).

Record header_state : Type := mk_header_state {
  header : list string;
  is_missing_data : bool;
  missing_data_val : missing_val
}.

Definition header_init : header_state :=
  mk_header_state [] false NumpyNan.

(** The body of the [while] loop over the header lines. *)
Definition header_step (st : header_state) (line : string) : res header_state :=
  if Py.contains "; Missing data:" line then
    v <- Py.index (Py.split ":" line) 1 ;;
    Ok (mk_header_state (header st ++ [line]) true (Bytes (Py.strip v)))
  else
    Ok (mk_header_state (header st ++ [line]) (is_missing_data st)
          (missing_data_val st)).

(** [while line.startswith(";"): ...; line = fp.readline()].  Returns the
    loop state, the first line that is not a header line (already read)
    and the handle behind it. *)
Fixpoint read_header (fp : list string) (line : string) (st : header_state)
  : res (header_state * string * list string) :=
  if Py.startswith ";" line then
    match header_step st line with
    | Raise e => Raise e
    | Ok st' =>
        match fp with
        | [] => Ok (st', EmptyString, [])
        | l :: fp' => read_header fp' l st'
        end
    end
  else Ok (st, line, fp).

(** [piece.replace(';', ' ').strip()] *)
Definition clean (piece : string) : string :=
  Py.strip (Py.replace ";" " " piece).

(** [hline.split(':')[0]]: a split always has a first piece. *)
Definition before_colon (hline : string) : string :=
  fst (Py.split_pieces ":" hline).

(** One turn of the loop that fills [meta]. *)
Definition meta_step (meta : OrderedDict.t string) (hline : string)
  : res (OrderedDict.t string) :=
  if (String.eqb hline (nl "; Format:") ||
      String.eqb hline (nl "; Column descriptions:"))%bool then Ok meta
  else if (Py.contains "Created" hline || Py.contains "Source" hline)%bool then
    v <- Py.index (Py.split1 ":" hline) 1 ;;
    k <- Py.index (Py.split1 ":" hline) 0 ;;
    Ok (OrderedDict.set (clean k) (Py.strip v) meta)
  else if Py.contains ":" hline then
    v <- Py.index (Py.split ":" hline) 1 ;;
    Ok (OrderedDict.set (clean (before_colon hline)) (Py.strip v) meta)
  else Ok meta.

Fixpoint build_meta (meta : OrderedDict.t string) (header : list string)
  : res (OrderedDict.t string) :=
  match header with
  | [] => Ok meta
  | hline :: rest => meta' <- meta_step meta hline ;; build_meta meta' rest
  end.

(** The loop that collects the field names, with its flag. *)
Fixpoint field_names (fieldnames_start : bool) (header : list string)
  : list string :=
  match header with
  | [] => []
  | hline :: rest =>
      let started :=
        if Py.startswith "; Format:" hline then false else fieldnames_start in
      let here := if started then [clean (before_colon hline)] else [] in
      let started' :=
        if Py.startswith "; Column descriptions:" hline then true else started in
      here ++ field_names started' rest
  end.

(** [lambda x: datetime(year, month, day, int(x[0:2]), int(x[2:4]))] *)
Definition parser (year month day : Z) (x : string) : res datetime :=
  h <- Py.int (Py.slice 0 2 x) ;;
  mi <- Py.int (Py.slice 2 4 x) ;;
  Datetime.make year month day h mi.

(** *** [read_csv(fp, sep="\s*", names=fields, index_col=0,
        date_parser=parser, header=None, engine='python')]

    The rest of the file is read line by line; a line is stripped and cut
    at runs of whitespace; blank lines are skipped.  The first token of
    every row goes through [parser] and becomes the row's index entry.

    When the first row has more tokens than there are names, its first
    token is an index without name and all the names label data columns;
    otherwise the first name belongs to the index and the names after it
    label the data columns.  Without names the data columns are numbered
    after the first row.  A row with more tokens than index and data
    columns together is rejected; a shorter row has [nan] in the columns
    it leaves empty.

    A column all of whose tokens read as numbers (the NA strings read as
    [nan]) holds floats; any other column holds the text of its tokens,
    with [nan] for the NA strings.  Boolean columns and the order in
    which several faults are reported are left out. *)

Definition nonblank (toks : list string) : bool :=
  match toks with
  | [] => false
  | _ => true
  end.

Definition body_rows (fp : list string) : list (list string) :=
  filter nonblank (map Py.words fp).

(** The strings pandas reads as a missing value. *)
Definition na_values : list string :=
  [ "#N/A"; "#N/A N/A"; "#NA"; "-1.#IND"; "-1.#QNAN"; "-NaN"; "-nan";
    "1.#IND"; "1.#QNAN"; "N/A"; "NA"; "NULL"; "NaN"; "nan" ].

Definition is_na (tok : string) : bool :=
  existsb (String.eqb tok) na_values.

(** The number a token reads as, when it reads as one. *)
Definition to_number (tok : string) : option pyfloat :=
  if is_na tok then Some NaN
  else match Float.of_bytes tok with
       | Ok x => Some x
       | Raise _ => None
       end.

Definition reads_as_number (tok : string) : bool :=
  match to_number tok with
  | Some _ => true
  | None => false
  end.

(** The token of a row under data column [j]: the tokens after the first
    are the data tokens. *)
Definition data_token (toks : list string) (j : nat) : option string :=
  nth_error (tl toks) j.

(** Data column [j] is numeric when every token under it reads as a
    number. *)
Definition column_numeric (rows : list (list string)) (j : nat) : bool :=
  forallb (fun toks => match data_token toks j with
                       | Some tok => reads_as_number tok
                       | None => true
                       end) rows.

Definition convert (rows : list (list string)) (j : nat) (tok : option string)
  : cell :=
  match tok with
  | None => Num NaN
  | Some t =>
      if column_numeric rows j then
        match to_number t with
        | Some x => Num x
        | None => Str t
        end
      else if is_na t then Num NaN else Str t
  end.

Definition row_cells (rows : list (list string)) (width : nat)
  (toks : list string) : list cell :=
  map (fun j => convert rows j (data_token toks j)) (seq 0 width).

(** The number of data columns and their labels. *)
Definition layout (names : list string) (rows : list (list string))
  : res (nat * list label) :=
  match names with
  | [] =>
      match rows with
      | [] => Raise ParserError
      | r0 :: _ => Ok ((length r0 - 1)%nat, map Pos (seq 1 (length r0 - 1)))
      end
  | _ :: data_names =>
      match rows with
      | r0 :: _ =>
          if Nat.ltb (length names) (length r0)
          then Ok (length names, map Name names)
          else Ok (length data_names, map Name data_names)
      | [] => Ok (length data_names, map Name data_names)
      end
  end.

Definition check_width (width : nat) (toks : list string) : res unit :=
  if Nat.ltb (S width) (length toks) then Raise ParserError else Ok tt.

Definition first_token (toks : list string) : string :=
  hd EmptyString toks.

Definition read_csv (fp : list string) (names : list string)
  (date_parser : string -> res datetime) : res (DataFrame datetime) :=
  let rows := body_rows fp in
  lay <- layout names rows ;;
  checked <- mapM (check_width (fst lay)) rows ;;
  idx <- mapM date_parser (map first_token rows) ;;
  Ok (mk_frame idx (snd lay) (map (row_cells rows (fst lay)) rows)).

(** [float(missing_data_val)] *)
Definition float_of_missing (v : missing_val) : res pyfloat :=
  match v with
  | NumpyNan => Ok NaN
  | Bytes b => Float.of_bytes b
  end.

Definition units_0cs : OrderedDict.t unit_t :=
  [ ("XRS-B proxy", dimensionless_unscaled);
    ("XRS-A proxy", dimensionless_unscaled);
    ("SEM proxy", dimensionless_unscaled);
    ("0.1-7ESPquad", W_per_m2);
    ("17.1ESP", W_per_m2);
    ("25.7ESP", W_per_m2);
    ("30.4ESP", W_per_m2);
    ("36.6ESP", W_per_m2);
    ("darkESP", ct);
    ("121.6MEGS-P", W_per_m2);
    ("darkMEGS-P", ct);
    ("q0ESP", dimensionless_unscaled);
    ("q1ESP", dimensionless_unscaled);
    ("q2ESP", dimensionless_unscaled);
    ("q3ESP", dimensionless_unscaled);
    ("CMLat", W_per_m2);
    ("CMLon", W_per_m2) ].

(** The date line [YYYY DOY MM DD], cut at single spaces. *)
Definition date_anchor (line : string) : res (Z * Z * Z) :=
  let date_parts := Py.split " " line in
  year <- (p <- Py.index date_parts 0 ;; Py.int p) ;;
  month <- (p <- Py.index date_parts 2 ;; Py.int p) ;;
  day <- (p <- Py.index date_parts 3 ;; Py.int p) ;;
  Ok (year, month, day).

(** [_parse_level_0cs] without its [print]. *)
Definition level_0cs (fp : list string) : res result :=
  let (line, fp) := readline fp in
  r <- read_header fp line header_init ;;
  let '(st, line, fp) := r in
  meta <- build_meta OrderedDict.empty (header st) ;;
  let fields := field_names false (header st) in
  ymd <- date_anchor line ;;
  let '(year, month, day) := ymd in
  data <- read_csv fp fields (parser year month day) ;;
  data <- (if is_missing_data st
           then x <- float_of_missing (missing_data_val st) ;;
                Ok (Frame.mask_eq x data)
           else Ok data) ;;
  Ok (Tuple3 data meta units_0cs).

Definition _parse_level_0cs (fp : list string) : M result :=
  print (LF ++ "start _parse_level_0cs()") >> lift (level_0cs fp).

Section Averages.

(** [read_csv(fp, sep=",", index_col=0, parse_dates=True)], pandas' reader
    with its date inference, is a parameter of the averages parser. *)
Variable read_csv_dates : list string -> res (DataFrame datetime).

Definition _parse_average_csv (fp : list string) : M result :=
  print (LF ++ "in _parse_average_csv()") >>
  lift (df <- read_csv_dates fp ;; Ok (Tuple2 EmptyString df)).

(** [cls._filename = ...] *)
Definition set_filename (name : string) : M unit :=
  fun w => (Ok tt, mk_world (Some name) (stdout w)).

(** [_parse_file(cls, filepath)], with the bytes of the file at
    [filepath].  [fp.seek(0)] puts the first line back, so both parsers
    start from the whole file. *)
Definition _parse_file (filepath : string) (content : string) : M result :=
  print (LF ++ "in _parse_file()") >>
  set_filename (Py.basename filepath) >>
  let fp := readlines content in
  let line1 := fst (readline fp) in
  if Py.startswith "Date" line1 then _parse_average_csv fp
  else if Py.startswith ";" line1 then _parse_level_0cs fp
  else ret PyNone.

End Averages.

(** [kwargs.get('source', '').startswith('EVE')] *)
Definition is_datasource_for (source : option string) : bool :=
  Py.startswith "EVE" (match source with Some s => s | None => EmptyString end).

End EVELightCurve.

(** ** [sunpy/timeseries/sources/norh.py] *)

Module NoRHLightCurve.

(** A FITS header card holds a string, a float or an integer. *)
Inductive hval : Type :=
| HStr (s : string)
| HFloat (x : pyfloat)
| HInt (n : Z).

Definition header_t : Type := OrderedDict.t hval.

(** [np.float(v)], which is Python's [float]. *)
Definition np_float (v : hval) : res pyfloat :=
  match v with
  | HStr s => Float.of_bytes s
  | HFloat x => Ok x
  | HInt n => Ok (Fin (inject_Z n))
  end.

(** [a + b] on two header values used as strings. *)
Definition str_add (a b : hval) : res hval :=
  match a, b with
  | HStr x, HStr y => Ok (HStr (x ++ y))
  | _, _ => Raise TypeError
  end.

Definition as_str (v : hval) : res string :=
  match v with
  | HStr s => Ok s
  | _ => Raise TypeError
  end.

(** [y[-1] = stop] *)
Fixpoint set_last (stop : Q) (y : list Q) : list Q :=
  match y with
  | [] => []
  | [_] => [stop]
  | v :: y' => v :: set_last stop y'
  end.

(** [numpy.arange(0, n)] *)
Definition arange (n : nat) : list Q :=
  map (fun i => inject_Z (Z.of_nat i)) (seq 0 n).

(** [numpy.linspace(start, stop, num)] with the end point included; [num]
    is a float here and is truncated to an integer first. *)
Definition linspace (start stop : Q) (num : pyfloat) : res (list Q) :=
  n <- Float.to_int num ;;
  if n <? 0 then Raise ValueError
  else
    let y := arange (Z.to_nat n) in
    let delta := (stop - start)%Q in
    if 1 <? n then
      let step := (delta / inject_Z (n - 1))%Q in
      Ok (set_last stop (map (fun v => (v * step + start)%Q) y))
    else Ok (map (fun v => (v * delta + start)%Q) y).

(** Rounding to the nearest integer, ties to even. *)
Definition round_half_even (q : Q) : Z :=
  let f := Qfloor q in
  match Qcompare (q - inject_Z f) (1 # 2) with
  | Lt => f
  | Gt => f + 1
  | Eq => if Z.even f then f else f + 1
  end.

(** [datetime.timedelta(0, s)] in microseconds. *)
Definition timedelta (s : Q) : Z :=
  round_half_even (s * inject_Z 1000000).

(** The [columns] argument of [pandas.DataFrame]: a bare string, or a
    collection of labels. *)
Inductive columns_arg : Type :=
| Scalar (s : string)
| Labels (l : list string).

(** [pandas.DataFrame(data, index=idx, columns=columns)] on a
    one-dimensional array.  [columns] must be a collection: a bare string
    is refused with a [TypeError], before any shape is compared.  With one
    label there is one row per sample, and an index of another length is
    refused with a [ValueError]. *)
Definition make_frame {I : Type} (data : list pyfloat) (idx : list I)
  (columns : columns_arg) : res (DataFrame I) :=
  match columns with
  | Scalar _ => Raise TypeError
  | Labels l =>
      if (Nat.eqb (length idx) (length data) && Nat.eqb (length l) 1)%bool
      then Ok (mk_frame idx (map Name l) (map (fun x => [Num x]) data))
      else Raise ValueError
  end.

Section Parse.

(** [sunpy.time.parse_time] is a parameter; a time is its position in
    microseconds on the time line, where adding a [timedelta] is
    addition. *)
Variable parse_time : string -> res Z.

(** [_parse_file] after [fits.open], up to the end of the loop that fills
    [norh_time]: [header] and [data] are those of the primary HDU. *)
Definition norh_time (header : header_t) (data : list pyfloat)
  : res (list Z) :=
  date_obs <- OrderedDict.item "DATE-OBS" header ;;
  s1 <- str_add date_obs (HStr "T") ;;
  crval1 <- OrderedDict.item "CRVAL1" header ;;
  s2 <- str_add s1 crval1 ;;
  text <- as_str s2 ;;
  obs_start_time <- parse_time text ;;
  let length := Z.of_nat (List.length data) in
  cdelt1 <- OrderedDict.item "CDELT1" header ;;
  cadence <- np_float cdelt1 ;;
  num <- Float.int_div length cadence ;;
  sec_array <- linspace 0 (inject_Z (length - 1)) num ;;
  Ok (map (fun s => obs_start_time + timedelta s) sec_array).

(** The rest of [_parse_file].  [('Correlation Coefficient')] is a string
    in parentheses, not a tuple. *)
Definition parse (header : header_t) (data : list pyfloat)
  : res (DataFrame Z * header_t * OrderedDict.t unit_t) :=
  axis <- norh_time header data ;;
  let units := [("Correlation Coefficient", dimensionless_unscaled)] in
  frame <- make_frame data axis (Scalar "Correlation Coefficient") ;;
  Ok (frame, header, units).

End Parse.

(** The time-series object. *)
Record TimeSeries : Type := mk_series {
  data : DataFrame Z;
  meta : header_t;
  units : OrderedDict.t unit_t;
  _nickname : option hval
}.

Section Init.

(** [GenericTimeSeries.__init__] and the [detector] property of the base
    class are parameters. *)
Variable GenericTimeSeries_init : DataFrame Z -> header_t -> TimeSeries.
Variable detector : TimeSeries -> hval.

Definition __init__ (data0 : DataFrame Z) (header : header_t) : TimeSeries :=
  let self := GenericTimeSeries_init data0 header in
  let self := mk_series (data self)
                (OrderedDict.set "detector" (HStr EmptyString) (meta self))
                (units self) (_nickname self) in
  mk_series (data self) (meta self) (units self) (Some (detector self)).

End Init.

(** [kwargs.get('source', '').startswith('NoRH')] *)
Definition is_datasource_for (source : option string) : bool :=
  Py.startswith "NoRH" (match source with Some s => s | None => EmptyString end).

End NoRHLightCurve.

(** ** Vocabulary of the statements *)

(** The first line of a file, as [fp.readline()] returns it. *)
Definition first_line (content : string) : string :=
  fst (readline (readlines content)).

(** A fresh process: no class attribute set, nothing printed. *)
Definition fresh : World := mk_world None [].

(** The world right after the first two statements of
    [EVELightCurve._parse_file]. *)
Definition entered (filepath : string) (w : World) : World :=
  mk_world (Some (Py.basename filepath))
           (stdout w ++ [(LF ++ "in _parse_file()")%string]).

(** The canonical record shape: table, metadata mapping, unit mapping, in
    this order. *)
Definition canonical (r : EVELightCurve.result) : bool :=
  match r with
  | EVELightCurve.Tuple3 _ _ _ => true
  | _ => false
  end.

(** A reader that hands back the same frame for every file. *)
Definition constant_reader (df : DataFrame datetime)
  : list string -> res (DataFrame datetime) :=
  fun _ => Ok df.

Definition empty_frame : DataFrame datetime := mk_frame [] [] [].

(** The two marker tests of the field-name loop, and the name a header line
    yields. *)
Definition is_format (hline : string) : bool :=
  Py.startswith "; Format:" hline.

Definition is_column_descriptions (hline : string) : bool :=
  Py.startswith "; Column descriptions:" hline.

Definition field_name (hline : string) : string :=
  EVELightCurve.clean (EVELightCurve.before_colon hline).

(** The lines in front of the first line that satisfies [p], when there is
    such a line. *)
Fixpoint lines_until (p : string -> bool) (l : list string)
  : option (list string) :=
  match l with
  | [] => None
  | x :: r => if p x then Some [] else option_map (cons x) (lines_until p r)
  end.

(** The field-name region in the words of the specification: the lines
    strictly between the two marker lines, whichever of the two comes
    first.  A region that is never closed yields no names. *)
Fixpoint marked_region (header : list string) : list string :=
  match header with
  | [] => []
  | l :: rest =>
      if is_column_descriptions l then
        match lines_until is_format rest with Some mid => mid | None => [] end
      else if is_format l then
        match lines_until is_column_descriptions rest with
        | Some mid => mid
        | None => []
        end
      else marked_region rest
  end.

Definition field_names_spec (header : list string) : list string :=
  map field_name (marked_region header).

(** The tests of the metadata loop, and what a header line writes. *)
Definition is_marker_line (hline : string) : bool :=
  (String.eqb hline (nl "; Format:") ||
   String.eqb hline (nl "; Column descriptions:"))%bool.

Definition is_special (hline : string) : bool :=
  (Py.contains "Created" hline || Py.contains "Source" hline)%bool.

(** The text after the first colon of a line, when it has a colon. *)
Definition after_first_colon (hline : string) : option string :=
  snd (Py.split_once ":" hline).

Definition meta_key (hline : string) : string :=
  EVELightCurve.clean (fst (Py.split_once ":" hline)).

(** The value the specification asks for: everything after the first
    colon, trimmed. *)
Definition whole_value (rest : string) : string := Py.strip rest.

(** The value the loop stores: everything after the first colon for the
    [Created] and [Source] lines, and only the text up to the second colon
    for every other line. *)
Definition meta_value (hline rest : string) : string :=
  if is_special hline then Py.strip rest
  else Py.strip (fst (Py.split_once ":" rest)).

Definition meta_entry (hline : string) : option (string * string) :=
  if is_marker_line hline then None
  else match after_first_colon hline with
       | Some rest => Some (meta_key hline, meta_value hline rest)
       | None => None
       end.

(** Does [hline] write the key [k]? *)
Definition writes_key (k : string) (hline : string) : bool :=
  match meta_entry hline with
  | Some (k', _) => String.eqb k' k
  | None => false
  end.

(** Time tokens: the two decimal digits of a number below one hundred, the
    four-character code [HHMM], and the test that a token starts with four
    digits. *)
Definition digit_char (n : nat) : ascii := ascii_of_nat (48 + n).

Definition two_digits (n : nat) : string :=
  String (digit_char (n / 10)) (String (digit_char (n mod 10)) EmptyString).

Definition hhmm (h m : nat) : string := (two_digits h ++ two_digits m)%string.

Definition is_digit (c : ascii) : bool :=
  match Py.digit_val c with
  | Some _ => true
  | None => false
  end.

Definition starts_with_four_digits (tok : string) : bool :=
  match tok with
  | String a (String b (String c (String d _))) =>
      (is_digit a && is_digit b && is_digit c && is_digit d)%bool
  | _ => false
  end.

(** [int] reads the two digits of a number back. *)
Definition reads_back (n : nat) : bool :=
  match Py.int (two_digits n) with
  | Ok z => z =? Z.of_nat n
  | Raise _ => false
  end.

(** A small level-0CS file: [header_lines], the date line of 15 January
    2013 and the given body rows. *)
Definition header_lines : list string :=
  [ nl "; EVE L0CS";
    nl "; Missing data: -99";
    nl "; Column descriptions:";
    nl ";   HHMM: hour and minute";
    nl ";   fieldA: first channel";
    nl ";   fieldB: second channel";
    nl "; Format:" ].

Definition level_0cs_file (rows : list string) : list string :=
  (header_lines ++ nl "2013 015 01 15" :: map nl rows)%list.

(** The frame of a result, for evaluations. *)
Definition frame_of (r : res EVELightCurve.result) : DataFrame datetime :=
  match r with
  | Ok (EVELightCurve.Tuple3 df _ _) => df
  | Ok (EVELightCurve.Tuple2 _ df) => df
  | _ => empty_frame
  end.

Definition meta_of (r : res EVELightCurve.result) : OrderedDict.t string :=
  match r with
  | Ok (EVELightCurve.Tuple3 _ meta _) => meta
  | _ => OrderedDict.empty
  end.


(** A [parse_time] that reads every text as the instant [t0]. *)
Definition parse_time_at (t0 : Z) : string -> res Z := fun _ => Ok t0.

(** A NoRH header with the given cadence card, and [n] samples. *)
Definition norh_header (cdelt1 : NoRHLightCurve.hval) : NoRHLightCurve.header_t :=
  [ ("DATE-OBS", NoRHLightCurve.HStr "2013-01-15");
    ("CRVAL1", NoRHLightCurve.HStr "00:00:00");
    ("CDELT1", cdelt1);
    ("detector", NoRHLightCurve.HStr "NoRH") ].

Definition samples (n : nat) : list pyfloat := repeat (Fin (1 # 2)) n.

(** The [detector] property read from the metadata, with the empty string
    when the key is absent. *)
Definition detector_of_meta (ts : NoRHLightCurve.TimeSeries) : NoRHLightCurve.hval :=
  match OrderedDict.get "detector" (NoRHLightCurve.meta ts) with
  | Some v => v
  | None => NoRHLightCurve.HStr EmptyString
  end.

(** A base constructor that stores its arguments. *)
Definition plain_init (data : DataFrame Z) (header : NoRHLightCurve.header_t)
  : NoRHLightCurve.TimeSeries :=
  NoRHLightCurve.mk_series data header [] None.

(** ** Vocabulary for the header block *)

(** The test of the [while] loop, and the test for a declaration of the
    missing-data value. *)
Definition is_header_line (l : string) : bool := Py.startswith ";" l.

Definition declares_missing (l : string) : bool :=
  Py.contains "; Missing data:" l.

Fixpoint take_while (p : string -> bool) (l : list string) : list string :=
  match l with
  | [] => []
  | x :: r => if p x then x :: take_while p r else []
  end.

Fixpoint drop_while (p : string -> bool) (l : list string) : list string :=
  match l with
  | [] => []
  | x :: r => if p x then drop_while p r else l
  end.

(** The last line of a list that declares the missing-data value. *)
Fixpoint last_declaration (l : list string) : option string :=
  match l with
  | [] => None
  | x :: r =>
      match last_declaration r with
      | Some y => Some y
      | None => if declares_missing x then Some x else None
      end
  end.

(** [line.split(':')[1].strip()], with the empty string for a line
    without colon. *)
Definition declared_value (l : string) : string :=
  Py.strip (nth 1 (Py.split ":" l) EmptyString).

(** The state of the loop agrees with the last declaration among the
    lines captured so far. *)
Definition missing_consistent (st : EVELightCurve.header_state) : Prop :=
  match last_declaration (EVELightCurve.header st) with
  | Some l =>
      EVELightCurve.is_missing_data st = true /\
      EVELightCurve.missing_data_val st = EVELightCurve.Bytes (declared_value l)
  | None =>
      EVELightCurve.is_missing_data st = false /\
      EVELightCurve.missing_data_val st = EVELightCurve.NumpyNan
  end.

(** ** Vocabulary for the metadata loop *)

(** A line on which the loop raises: not one of the two marker lines, with
    [Created] or [Source] in it, and without colon. *)
Definition malformed_special (hline : string) : bool :=
  (negb (is_marker_line hline) && is_special hline &&
   negb (Py.contains ":" hline))%bool.

(** The entries the header lines write, in file order. *)
Definition meta_entries (header : list string) : list (string * string) :=
  flat_map (fun l => match meta_entry l with
                     | Some e => [e]
                     | None => []
                     end) header.

Definition update (d : OrderedDict.t string) (e : string * string)
  : OrderedDict.t string :=
  OrderedDict.set (fst e) (snd e) d.

Definition mem (k : string) (l : list string) : bool :=
  existsb (String.eqb k) l.

(** The keys of [ks] behind those of [seen], each at its first
    occurrence. *)
Fixpoint first_occurrences (seen ks : list string) : list string :=
  match ks with
  | [] => seen
  | k :: r => first_occurrences (if mem k seen then seen else seen ++ [k]) r
  end.

(** ** The level-0CS parser in terms of the lines of the file *)

Definition header_of (fp : list string) : list string :=
  take_while is_header_line fp.

Definition date_line_of (fp : list string) : string :=
  fst (readline (drop_while is_header_line fp)).

Definition body_of (fp : list string) : list string :=
  snd (readline (drop_while is_header_line fp)).

Definition fields_of (fp : list string) : list string :=
  EVELightCurve.field_names false (header_of fp).

(** The replacement of the missing-data value, by the last declaration of
    the header. *)
Definition replace_missing (header : list string) (data : DataFrame datetime)
  : res (DataFrame datetime) :=
  match last_declaration header with
  | Some l =>
      x <- Float.of_bytes (declared_value l) ;; Ok (Frame.mask_eq x data)
  | None => Ok data
  end.

(** The date fields of an index entry. *)
Definition on_date (y mo d : Z) (dt : datetime) : Prop :=
  year dt = y /\ month dt = mo /\ day dt = d /\
  0 <= hour dt <= 23 /\ 0 <= minute dt <= 59 /\ second dt = 0.

(** ** The title of [EVELightCurve.peek] *)

(** [os.path.splitext]: the extension starts at the last dot of the last
    path component, unless only dots come before it in that component. *)
Fixpoint split_last_dot (s : string) : option (string * string) :=
  match s with
  | EmptyString => None
  | String c r =>
      match split_last_dot r with
      | Some (root, ext) => Some (String c root, ext)
      | None => if Ascii.eqb c "." then Some (EmptyString, s) else None
      end
  end.

Fixpoint all_dots (s : string) : bool :=
  match s with
  | EmptyString => true
  | String c r => (Ascii.eqb c "." && all_dots r)%bool
  end.

Definition splitext (p : string) : string * string :=
  match split_last_dot p with
  | Some (root, ext) =>
      if Py.contains "/" ext then (p, EmptyString)
      else if all_dots (Py.basename root) then (p, EmptyString)
      else (root, ext)
  | None => (p, EmptyString)
  end.

Definition label_eqb (a b : label) : bool :=
  match a, b with
  | Name x, Name y => String.eqb x y
  | Pos n, Pos m => Nat.eqb n m
  | _, _ => false
  end.

(** The title [peek] hands to the plot call: [filename] is the value of
    [self._filename], [data_columns] the columns of [self.data], [column]
    the argument of [peek] and [title] the entry of [kwargs], when there is
    one.  Selecting a column that the table does not have raises. *)
Definition peek_title (filename : option string) (data_columns : list label)
  (column : option string) (title : option string) : res string :=
  match column with
  | None =>
      match title with
      | Some t => Ok t
      | None =>
          Ok (if Nat.ltb 1 (length data_columns) then "EVE (1 minute data)"
              else match filename with
                   | Some f => fst (splitext (Py.replace "_" " " f))
                   | None => "EVE Averages"
                   end)
      end
  | Some c =>
      if existsb (label_eqb (Name c)) data_columns then
        match title with
        | Some t => Ok t
        | None => Ok ("EVE " ++ Py.replace "_" " " c)
        end
      else Raise KeyError
  end.

(** The bytes of a list of lines, one after the other. *)
Fixpoint join (l : list string) : string :=
  match l with
  | [] => EmptyString
  | x :: r => (x ++ join r)%string
  end.


(** * Properties *)

(** ** Sanity checks of the Python primitives *)

Example split_all_colons :
  Py.split ":" "; k: a:b" = ["; k"; " a"; "b"].
Proof. reflexivity. Qed.

Example split1_first_colon :
  Py.split1 ":" "; k: a:b" = ["; k"; " a:b"].
Proof. reflexivity. Qed.

Example strip_both_ends :
  Py.strip "  XRS-B proxy
" = "XRS-B proxy".
Proof. reflexivity. Qed.

Example words_runs :
  Py.words "0000  -99 3.2
" = ["0000"; "-99"; "3.2"].
Proof. reflexivity. Qed.

Example int_examples :
  Py.int "15
" = Ok 15 /\ Py.int "015" = Ok 15 /\ Py.int "+1" = Ok 1 /\
  Py.int "" = Raise ValueError /\ Py.int ":3" = Raise ValueError.
Proof. repeat split; reflexivity. Qed.

Example basename_examples :
  Py.basename "data/eve/a.txt" = "a.txt" /\ Py.basename "a.txt" = "a.txt" /\
  Py.basename "dir/" = "".
Proof. repeat split; reflexivity. Qed.

Example float_of_bytes_examples :
  Float.eqb (Fin (-1)) (Fin (-1)) = true /\
  (exists q, Float.of_bytes "-1.00e+00" = Ok (Fin q) /\ Qeq_bool q (-1) = true) /\
  (exists q, Float.of_bytes "3.2" = Ok (Fin q) /\ Qeq_bool q (32 # 10) = true) /\
  (exists q, Float.of_bytes " 2.5E-1
" = Ok (Fin q) /\ Qeq_bool q (1 # 4) = true) /\
  Float.of_bytes "nan" = Ok NaN /\
  Float.of_bytes "-inf" = Ok NInf /\
  Float.of_bytes "none" = Raise ValueError /\
  Float.of_bytes "" = Raise ValueError /\
  Float.of_bytes "." = Raise ValueError.
Proof.
  repeat split; try reflexivity; eexists; split; reflexivity.
Qed.

(** ** Prefixes *)

Lemma startswith_cons (a b : ascii) (p s : string) :
  Py.startswith (String a p) (String b s) =
  (Ascii.eqb a b && Py.startswith p s)%bool.
Proof. reflexivity. Qed.

Lemma startswith_head (a : ascii) (p s : string) :
  Py.startswith (String a p) s = true ->
  exists s', s = String a s' /\ Py.startswith p s' = true.
Proof.
  destruct s as [|b s']; [discriminate|].
  rewrite startswith_cons. intros H.
  apply andb_true_iff in H as [Hc Hp].
  apply Ascii.eqb_eq in Hc. subst b. exists s'. split; [reflexivity|exact Hp].
Qed.

(** Two prefixes that differ in their first byte exclude each other. *)
Lemma startswith_distinct_head (a b : ascii) (p q s : string) :
  a <> b ->
  Py.startswith (String a p) s = true ->
  Py.startswith (String b q) s = false.
Proof.
  intros Hab H. apply startswith_head in H as (s' & -> & _).
  rewrite startswith_cons.
  destruct (Ascii.eqb b a) eqn:E; [|reflexivity].
  apply Ascii.eqb_eq in E. congruence.
Qed.

(** ** The EVE dispatcher *)

Section Dispatch.

Variable read_csv_dates : list string -> res (DataFrame datetime).

Lemma parse_file_unfold (filepath content : string) (w : World) :
  EVELightCurve._parse_file read_csv_dates filepath content w =
  let fp := readlines content in
  let line1 := fst (readline fp) in
  if Py.startswith "Date" line1
  then EVELightCurve._parse_average_csv read_csv_dates fp (entered filepath w)
  else if Py.startswith ";" line1
       then EVELightCurve._parse_level_0cs fp (entered filepath w)
       else (Ok EVELightCurve.PyNone, entered filepath w).
Proof.
  unfold EVELightCurve._parse_file, seq_, print, EVELightCurve.set_filename,
    entered, ret.
  cbn [fst snd EVELightCurve_filename stdout].
  destruct (Py.startswith "Date" (fst (readline (readlines content))));
    [reflexivity|].
  destruct (Py.startswith ";" (fst (readline (readlines content))));
    reflexivity.
Qed.

Lemma average_csv_unfold (fp : list string) (w : World) :
  EVELightCurve._parse_average_csv read_csv_dates fp w =
  (df <- read_csv_dates fp ;; Ok (EVELightCurve.Tuple2 EmptyString df),
   mk_world (EVELightCurve_filename w)
            (stdout w ++ [(LF ++ "in _parse_average_csv()")%string])).
Proof. reflexivity. Qed.

Lemma level_0cs_unfold (fp : list string) (w : World) :
  EVELightCurve._parse_level_0cs fp w =
  (EVELightCurve.level_0cs fp,
   mk_world (EVELightCurve_filename w)
            (stdout w ++ [(LF ++ "start _parse_level_0cs()")%string])).
Proof. reflexivity. Qed.

(** C3 (as amended): a first line that begins with [Date] goes to the
    averages parser, one that begins with [;] goes to the level-0CS parser,
    and for any other first line [_parse_file] falls off its [if]/[elif]
    and returns [None]: no parser runs, no exception is raised. *)
Theorem eve_dispatch_by_first_line (filepath content : string) (w : World) :
  (Py.startswith "Date" (first_line content) = true ->
   EVELightCurve._parse_file read_csv_dates filepath content w =
   EVELightCurve._parse_average_csv read_csv_dates (readlines content)
     (entered filepath w)) /\
  (Py.startswith ";" (first_line content) = true ->
   EVELightCurve._parse_file read_csv_dates filepath content w =
   EVELightCurve._parse_level_0cs (readlines content) (entered filepath w)) /\
  (Py.startswith "Date" (first_line content) = false ->
   Py.startswith ";" (first_line content) = false ->
   EVELightCurve._parse_file read_csv_dates filepath content w =
   (Ok EVELightCurve.PyNone, entered filepath w)).
Proof.
  rewrite parse_file_unfold. cbv zeta. fold (first_line content).
  generalize (first_line content) as line1. intro line1.
  repeat split.
  - intros H. rewrite H. reflexivity.
  - intros Hsemi.
    assert (Hdate : Py.startswith "Date" line1 = false).
    { apply (startswith_distinct_head ";" "D" "" "ate" line1);
        [discriminate | exact Hsemi]. }
    rewrite Hdate, Hsemi. reflexivity.
  - intros H1 H2. rewrite H1, H2. reflexivity.
Qed.

(** Every parse stores the base name of its path in the class attribute. *)
Lemma parse_file_sets_filename (filepath content : string) (w : World) :
  EVELightCurve_filename
    (snd (EVELightCurve._parse_file read_csv_dates filepath content w)) =
  Some (Py.basename filepath).
Proof.
  rewrite parse_file_unfold. cbv zeta.
  destruct (Py.startswith "Date" (fst (readline (readlines content)))).
  - rewrite average_csv_unfold. reflexivity.
  - destruct (Py.startswith ";" (fst (readline (readlines content)))).
    + rewrite level_0cs_unfold. reflexivity.
    + reflexivity.
Qed.

(** The averages parser hands back the pair of the empty string and the
    frame, or the reader's exception. *)
Lemma average_csv_result (fp : list string) (w : World) :
  fst (EVELightCurve._parse_average_csv read_csv_dates fp w) =
  match read_csv_dates fp with
  | Ok df => Ok (EVELightCurve.Tuple2 EmptyString df)
  | Raise e => Raise e
  end.
Proof.
  rewrite average_csv_unfold. cbn [fst]. unfold bind.
  destruct (read_csv_dates fp); reflexivity.
Qed.

End Dispatch.

(** ** Shape of the results *)

Lemma level_0cs_result_is_canonical (fp : list string) :
  match EVELightCurve.level_0cs fp with
  | Ok r => canonical r = true
  | Raise _ => True
  end.
Proof.
  unfold EVELightCurve.level_0cs.
  destruct (readline fp) as [line0 fp0].
  destruct (EVELightCurve.read_header fp0 line0 EVELightCurve.header_init)
    as [[[st dline] body]|e]; cbn [bind]; [|exact I].
  destruct (EVELightCurve.build_meta OrderedDict.empty (EVELightCurve.header st))
    as [meta|e]; cbn [bind]; [|exact I].
  destruct (EVELightCurve.date_anchor dline) as [[[y mo] d]|e]; cbn [bind];
    [|exact I].
  destruct (EVELightCurve.read_csv body _ _) as [df|e]; cbn [bind]; [|exact I].
  destruct (EVELightCurve.is_missing_data st); cbn [bind]; [|reflexivity].
  destruct (EVELightCurve.float_of_missing _); cbn [bind]; [reflexivity|exact I].
Qed.

(** C7 (evaluation of the code): on an averages file [_parse_file] hands
    back the two-element tuple [("", frame)], the empty string first and
    the table second, with no unit mapping; this is not the
    (table, meta, units) triple that the level-0CS parser returns. *)
Theorem eve_averages_returns_pair :
  (forall (df : DataFrame datetime) (w : World),
     fst (EVELightCurve._parse_file (constant_reader df) "avg.csv"
            (nl "Date,val" ++ nl "2013-01-15,1.0") w) =
     Ok (EVELightCurve.Tuple2 EmptyString df) /\
     canonical (EVELightCurve.Tuple2 EmptyString df) = false) /\
  (forall reader fp w,
     match fst (EVELightCurve._parse_average_csv reader fp w) with
     | Ok r => canonical r = false
     | Raise e => reader fp = Raise e
     end) /\
  (forall fp,
     match EVELightCurve.level_0cs fp with
     | Ok r => canonical r = true
     | Raise _ => True
     end).
Proof.
  split; [|split].
  - intros df w. split; reflexivity.
  - intros reader fp w. rewrite average_csv_result.
    destruct (reader fp); reflexivity.
  - exact level_0cs_result_is_canonical.
Qed.


(** Witness of C3's theorem: one file for each of the three branches. *)
Lemma eve_dispatch_by_first_line_witness :
  EVELightCurve._parse_file (constant_reader empty_frame) "a.csv"
    (nl "Date,x") fresh =
  EVELightCurve._parse_average_csv (constant_reader empty_frame)
    (readlines (nl "Date,x")) (entered "a.csv" fresh) /\
  EVELightCurve._parse_file (constant_reader empty_frame) "b.txt"
    (nl "; x") fresh =
  EVELightCurve._parse_level_0cs (readlines (nl "; x"))
    (entered "b.txt" fresh) /\
  EVELightCurve._parse_file (constant_reader empty_frame) "c.txt"
    (nl "hello") fresh =
  (Ok EVELightCurve.PyNone, entered "c.txt" fresh).
Proof.
  split; [|split].
  - apply (eve_dispatch_by_first_line (constant_reader empty_frame)
             "a.csv" (nl "Date,x") fresh). reflexivity.
  - apply (eve_dispatch_by_first_line (constant_reader empty_frame)
             "b.txt" (nl "; x") fresh). reflexivity.
  - apply (eve_dispatch_by_first_line (constant_reader empty_frame)
             "c.txt" (nl "hello") fresh); reflexivity.
Defined.

(** Counterexample to C3 as stated: a file whose first line begins with
    neither [Date] nor [;] is parsed without any exception; the caller gets
    [None]. *)
Lemma eve_unknown_first_line_is_not_an_error :
  Py.startswith "Date" (first_line (nl "hello")) = false /\
  Py.startswith ";" (first_line (nl "hello")) = false /\
  fst (EVELightCurve._parse_file (constant_reader empty_frame) "c.txt"
         (nl "hello") fresh) = Ok EVELightCurve.PyNone.
Proof. repeat split; reflexivity. Qed.

(** ** The field-name loop *)

Lemma format_is_not_column_descriptions (l : string) :
  is_format l = true -> is_column_descriptions l = false.
Proof.
  unfold is_format, is_column_descriptions. intros H.
  apply startswith_head in H as (s1 & -> & H).
  apply startswith_head in H as (s2 & -> & H).
  rewrite !startswith_cons, !Ascii.eqb_refl. cbn [andb].
  apply (startswith_distinct_head "F" "C" "ormat:" "olumn descriptions:" s2);
    [discriminate | exact H].
Qed.

Lemma column_descriptions_is_not_format (l : string) :
  is_column_descriptions l = true -> is_format l = false.
Proof.
  intros H. destruct (is_format l) eqn:E; [|reflexivity].
  apply format_is_not_column_descriptions in E. congruence.
Qed.

Lemma field_names_cons (b : bool) (hline : string) (rest : list string) :
  EVELightCurve.field_names b (hline :: rest) =
  ((if (if is_format hline then false else b) then [field_name hline] else []) ++
   EVELightCurve.field_names
     (if is_column_descriptions hline then true
      else if is_format hline then false else b) rest)%list.
Proof. reflexivity. Qed.

(** Before the opening marker nothing is collected. *)
Lemma field_names_before_opening (pre rest : list string) :
  Forall (fun l => is_column_descriptions l = false) pre ->
  EVELightCurve.field_names false (pre ++ rest) =
  EVELightCurve.field_names false rest.
Proof.
  induction 1 as [|l pre Hl _ IH]; [reflexivity|].
  cbn [app]. rewrite field_names_cons, Hl.
  destruct (is_format l); cbn [app]; exact IH.
Qed.

(** Inside the region every line yields its name, up to the closing
    marker. *)
Lemma field_names_inside (mid rest : list string) :
  Forall (fun l => is_format l = false) mid ->
  EVELightCurve.field_names true (mid ++ rest) =
  (map field_name mid ++ EVELightCurve.field_names true rest)%list.
Proof.
  induction 1 as [|l mid Hl _ IH]; [reflexivity|].
  cbn [app map]. rewrite field_names_cons, Hl.
  destruct (is_column_descriptions l); cbn [app]; rewrite IH; reflexivity.
Qed.

Lemma field_names_no_opening (post : list string) :
  Forall (fun l => is_column_descriptions l = false) post ->
  EVELightCurve.field_names false post = [].
Proof.
  intros H. rewrite <- (app_nil_r post).
  rewrite field_names_before_opening by exact H. reflexivity.
Qed.

(** C9 (as amended): the region is opened by the [Column descriptions:]
    marker and closed by the [Format:] marker, in this order only.  For a
    header with one such region the field names are the lines strictly
    between the two markers, each cut at its first colon, with [;] blanked
    and trimmed, in order. *)
Theorem field_names_between_markers
  (pre mid post : list string) (opening closing : string) :
  Forall (fun l => is_column_descriptions l = false) pre ->
  is_column_descriptions opening = true ->
  Forall (fun l => is_format l = false) mid ->
  is_format closing = true ->
  Forall (fun l => is_column_descriptions l = false) post ->
  EVELightCurve.field_names false (pre ++ opening :: mid ++ closing :: post) =
  map field_name mid.
Proof.
  intros Hpre Hopen Hmid Hclose Hpost.
  rewrite field_names_before_opening by exact Hpre.
  rewrite field_names_cons, Hopen.
  rewrite (column_descriptions_is_not_format _ Hopen). cbn [app].
  rewrite field_names_inside by exact Hmid.
  rewrite field_names_cons, Hclose.
  rewrite (format_is_not_column_descriptions _ Hclose). cbn [app].
  rewrite field_names_no_opening by exact Hpost.
  apply app_nil_r.
Qed.

Lemma field_names_between_markers_witness :
  EVELightCurve.field_names false
    ([nl "; EVE L0CS"; nl "; Format:"] ++
     nl "; Column descriptions:" ::
     [nl ";   HHMM: hour and minute"; nl ";   fieldA: first channel"] ++
     nl "; Format:" :: [nl "; trailer"]) =
  ["HHMM"; "fieldA"].
Proof.
  apply (field_names_between_markers
           [nl "; EVE L0CS"; nl "; Format:"]
           [nl ";   HHMM: hour and minute"; nl ";   fieldA: first channel"]
           [nl "; trailer"]
           (nl "; Column descriptions:") (nl "; Format:")).
  - repeat constructor.
  - reflexivity.
  - repeat constructor.
  - reflexivity.
  - repeat constructor.
Defined.

(** Counterexample to C9 as stated: when [Format:] comes first and
    [Column descriptions:] second, the lines between the two markers are
    not the field names; the loop collects what follows the second
    marker. *)
Lemma field_names_markers_swapped :
  field_names_spec
    [nl "; Format:"; nl "; a: x"; nl "; Column descriptions:"; nl "; b: y"] =
  ["a"] /\
  EVELightCurve.field_names false
    [nl "; Format:"; nl "; a: x"; nl "; Column descriptions:"; nl "; b: y"] =
  ["b"].
Proof. split; reflexivity. Qed.

(** ** [OrderedDict] *)

Lemma get_set_same {V : Type} (k : string) (v : V) (d : OrderedDict.t V) :
  OrderedDict.get k (OrderedDict.set k v d) = Some v.
Proof.
  induction d as [|[k' v'] d IH]; cbn.
  - rewrite String.eqb_refl. reflexivity.
  - destruct (String.eqb k' k) eqn:E; cbn.
    + rewrite String.eqb_refl. reflexivity.
    + rewrite E. exact IH.
Qed.

Lemma get_set_other {V : Type} (k k0 : string) (v : V) (d : OrderedDict.t V) :
  String.eqb k0 k = false ->
  OrderedDict.get k (OrderedDict.set k0 v d) = OrderedDict.get k d.
Proof.
  intros Hk. induction d as [|[k' v'] d IH]; cbn.
  - rewrite Hk. reflexivity.
  - destruct (String.eqb k' k0) eqn:E; cbn.
    + apply String.eqb_eq in E. subst k'. rewrite Hk. reflexivity.
    + destruct (String.eqb k' k); [reflexivity|exact IH].
Qed.

(** Assignment keeps the order of the keys already present. *)
Lemma keys_set_present {V : Type} (k : string) (v : V) (d : OrderedDict.t V) :
  In k (OrderedDict.keys d) ->
  OrderedDict.keys (OrderedDict.set k v d) = OrderedDict.keys d.
Proof.
  unfold OrderedDict.keys.
  induction d as [|[k' v'] d IH]; cbn; [intros []|].
  intros H. destruct (String.eqb k' k) eqn:E; cbn.
  - apply String.eqb_eq in E. subst k'. reflexivity.
  - f_equal. apply IH. destruct H as [H|H]; [|exact H].
    subst k'. rewrite String.eqb_refl in E. discriminate.
Qed.

Lemma keys_set_absent {V : Type} (k : string) (v : V) (d : OrderedDict.t V) :
  ~ In k (OrderedDict.keys d) ->
  OrderedDict.keys (OrderedDict.set k v d) = (OrderedDict.keys d ++ [k])%list.
Proof.
  unfold OrderedDict.keys.
  induction d as [|[k' v'] d IH]; cbn; [reflexivity|].
  intros H. destruct (String.eqb k' k) eqn:E; cbn.
  - apply String.eqb_eq in E. subst k'. exfalso. apply H. left. reflexivity.
  - f_equal. apply IH. intros Hin. apply H. right. exact Hin.
Qed.

(** ** Splitting at colons *)

Lemma split_pieces_once (c : ascii) (s : string) :
  fst (Py.split_pieces c s) = fst (Py.split_once c s).
Proof.
  induction s as [|a s IH]; [reflexivity|].
  cbn. destruct (Py.split_pieces c s) as [h t].
  destruct (Py.split_once c s) as [h' t'].
  cbn in IH. subst h'.
  destruct (Ascii.eqb a c); reflexivity.
Qed.

(** [s.split(c)] is the first piece followed by the split of what is
    behind the first separator. *)
Lemma split_unfold (c : ascii) (s : string) :
  Py.split c s =
  match Py.split_once c s with
  | (h, None) => [h]
  | (h, Some rest) => h :: Py.split c rest
  end.
Proof.
  induction s as [|a s IH]; [reflexivity|].
  unfold Py.split at 1. cbn [Py.split_pieces Py.split_once].
  destruct (Ascii.eqb a c) eqn:E.
  - unfold Py.split. destruct (Py.split_pieces c s) as [h t]. reflexivity.
  - unfold Py.split in IH at 1.
    destruct (Py.split_pieces c s) as [h t].
    destruct (Py.split_once c s) as [h' [rest|]];
      injection IH as -> ->; reflexivity.
Qed.

Lemma split_first (c : ascii) (s : string) :
  exists t, Py.split c s = fst (Py.split_once c s) :: t.
Proof.
  unfold Py.split. rewrite <- split_pieces_once.
  destruct (Py.split_pieces c s) as [h t]. exists t. reflexivity.
Qed.

(** [c in s] holds exactly when splitting at [c] leaves something behind
    the first piece. *)
Lemma contains_char (c : ascii) (s : string) :
  Py.contains (String c EmptyString) s =
  match snd (Py.split_once c s) with
  | Some _ => true
  | None => false
  end.
Proof.
  induction s as [|a s IH]; [reflexivity|].
  cbn [Py.contains Py.split_once]. rewrite startswith_cons.
  rewrite (Ascii.eqb_sym c a).
  destruct (Ascii.eqb a c); [reflexivity|].
  cbn [andb orb]. rewrite IH.
  destruct (Py.split_once c s) as [h t]. reflexivity.
Qed.

(** ** The metadata loop *)

(** A turn of the loop that does not raise writes the line's entry. *)
Lemma meta_step_entry (meta meta' : OrderedDict.t string) (hline : string) :
  EVELightCurve.meta_step meta hline = Ok meta' ->
  meta' = match meta_entry hline with
          | Some (k, v) => OrderedDict.set k v meta
          | None => meta
          end.
Proof.
  unfold EVELightCurve.meta_step, meta_entry.
  fold (is_marker_line hline). fold (is_special hline).
  destruct (is_marker_line hline); [intros [= <-]; reflexivity|].
  unfold after_first_colon, meta_key, meta_value.
  destruct (is_special hline).
  - unfold Py.split1.
    destruct (Py.split_once ":" hline) as [h [rest|]]; cbn.
    + intros [= <-]. reflexivity.
    + discriminate.
  - rewrite contains_char. unfold EVELightCurve.before_colon.
    rewrite split_pieces_once, split_unfold.
    destruct (Py.split_once ":" hline) as [h [rest|]]; cbn [fst snd].
    + destruct (split_first ":" rest) as [t ->]. cbn.
      intros [= <-]. reflexivity.
    + intros [= <-]. reflexivity.
Qed.

Lemma build_meta_app (meta : OrderedDict.t string) (l1 l2 : list string) :
  EVELightCurve.build_meta meta (l1 ++ l2) =
  (m <- EVELightCurve.build_meta meta l1 ;; EVELightCurve.build_meta m l2).
Proof.
  revert meta. induction l1 as [|x l1 IH]; intros meta; [reflexivity|].
  cbn [app EVELightCurve.build_meta].
  destruct (EVELightCurve.meta_step meta x) as [m|e]; cbn [bind];
    [apply IH|reflexivity].
Qed.

(** Lines that do not write [k] leave the value under [k] alone. *)
Lemma build_meta_keeps (k : string) (post : list string) :
  Forall (fun l => writes_key k l = false) post ->
  forall meta meta',
    EVELightCurve.build_meta meta post = Ok meta' ->
    OrderedDict.get k meta' = OrderedDict.get k meta.
Proof.
  induction 1 as [|l post Hl _ IH]; intros meta meta'.
  - intros [= <-]. reflexivity.
  - cbn [EVELightCurve.build_meta].
    destruct (EVELightCurve.meta_step meta l) as [m|e] eqn:E; cbn [bind];
      [|discriminate].
    intros Hrest. rewrite (IH _ _ Hrest).
    apply meta_step_entry in E. subst m.
    unfold writes_key in Hl.
    destruct (meta_entry l) as [[k' v']|]; [|reflexivity].
    apply get_set_other. exact Hl.
Qed.

(** C4 (as amended): for a header line that has a colon and is not one of
    the two marker lines, and whose key no later header line writes again,
    [meta] holds under the line's key: the whole text after the first colon
    (trimmed) when the line contains [Created] or [Source]; for every other
    line only the text between the first and the second colon (trimmed). *)
Theorem meta_value_of_header_line
  (pre post : list string) (hline rest : string) (meta : OrderedDict.t string) :
  EVELightCurve.build_meta OrderedDict.empty (pre ++ hline :: post) = Ok meta ->
  is_marker_line hline = false ->
  after_first_colon hline = Some rest ->
  Forall (fun l => writes_key (meta_key hline) l = false) post ->
  OrderedDict.get (meta_key hline) meta =
  Some (if is_special hline then Py.strip rest
        else Py.strip (fst (Py.split_once ":" rest))).
Proof.
  intros Hbuild Hmark Hrest Hpost.
  rewrite build_meta_app in Hbuild.
  destruct (EVELightCurve.build_meta OrderedDict.empty pre) as [m0|e];
    cbn [bind] in Hbuild; [|discriminate].
  cbn [EVELightCurve.build_meta] in Hbuild.
  destruct (EVELightCurve.meta_step m0 hline) as [m1|e] eqn:E;
    cbn [bind] in Hbuild; [|discriminate].
  rewrite (build_meta_keeps _ _ Hpost _ _ Hbuild).
  apply meta_step_entry in E. subst m1.
  unfold meta_entry. rewrite Hmark, Hrest.
  rewrite get_set_same. reflexivity.
Qed.

Lemma meta_value_of_header_line_witness :
  OrderedDict.get "Note"
    [("Created", "Tue Jun 21 00:10:03 2011 UTC"); ("Note", "see 12");
     ("Missing data", "-99")] = Some "see 12".
Proof.
  apply (meta_value_of_header_line
           [nl "; Created: Tue Jun 21 00:10:03 2011 UTC"]
           [nl "; Missing data: -99"; nl "; Format:"]
           (nl "; Note: see 12:30") (nl " see 12:30")).
  - reflexivity.
  - reflexivity.
  - reflexivity.
  - repeat constructor.
Defined.

(** Counterexample to C4 as stated: an ordinary key whose value has a
    colon of its own keeps only the text up to that colon. *)
Lemma meta_value_cut_at_second_colon :
  is_marker_line (nl "; Note: see 12:30") = false /\
  is_special (nl "; Note: see 12:30") = false /\
  after_first_colon (nl "; Note: see 12:30") = Some (nl " see 12:30") /\
  whole_value (nl " see 12:30") = "see 12:30" /\
  EVELightCurve.build_meta OrderedDict.empty [nl "; Note: see 12:30"] =
  Ok [("Note", "see 12")].
Proof. repeat split; reflexivity. Qed.

(** ** The time column *)

Lemma mapM_raises {A B : Type} (f : A -> res B) (l : list A) (x : A) (e : exn) :
  In x l -> f x = Raise e -> exists e', mapM f l = Raise e'.
Proof.
  intros Hin Hx. induction l as [|y l IH]; [destruct Hin|].
  cbn [mapM]. destruct Hin as [->|Hin].
  - rewrite Hx. exists e. reflexivity.
  - destruct (f y) as [b|e0]; cbn [bind]; [|exists e0; reflexivity].
    destruct (IH Hin) as [e' ->]. exists e'. reflexivity.
Qed.

Lemma int_two_digits (n : nat) :
  (n < 100)%nat -> Py.int (two_digits n) = Ok (Z.of_nat n).
Proof.
  intros Hn.
  assert (Hall : forallb reads_back (seq 0 100) = true) by (vm_compute; reflexivity).
  rewrite forallb_forall in Hall.
  assert (Hin : In n (seq 0 100)) by (apply in_seq; lia).
  specialize (Hall n Hin). unfold reads_back in Hall.
  destruct (Py.int (two_digits n)) as [z|e]; [|discriminate].
  apply Z.eqb_eq in Hall. subst z. reflexivity.
Qed.

Lemma parser_unfold (y mo d : Z) (x : string) :
  EVELightCurve.parser y mo d x =
  match Py.int (Py.slice 0 2 x) with
  | Raise e => Raise e
  | Ok h =>
      match Py.int (Py.slice 2 4 x) with
      | Raise e => Raise e
      | Ok mi =>
          if Datetime.valid y mo d h mi then Ok (mk_datetime y mo d h mi 0)
          else Raise ValueError
      end
  end.
Proof. reflexivity. Qed.

(** A four-digit code in range gives the time of day, whatever follows the
    fourth character. *)
Lemma parser_hhmm (y mo d : Z) (h m : nat) (tail : string) :
  Datetime.valid y mo d (Z.of_nat h) (Z.of_nat m) = true ->
  EVELightCurve.parser y mo d (hhmm h m ++ tail) =
  Ok (mk_datetime y mo d (Z.of_nat h) (Z.of_nat m) 0).
Proof.
  intros Hvalid. rewrite parser_unfold.
  assert (Hh : (h < 100)%nat /\ (m < 100)%nat).
  { unfold Datetime.valid in Hvalid.
    repeat (apply andb_true_iff in Hvalid as [Hvalid ?]).
    split; apply Nat2Z.inj_lt; lia. }
  destruct Hh as [Hh Hm].
  change (Py.slice 0 2 (hhmm h m ++ tail)) with (two_digits h).
  change (Py.slice 2 4 (hhmm h m ++ tail)) with (two_digits m).
  rewrite (int_two_digits h Hh), (int_two_digits m Hm), Hvalid. reflexivity.
Qed.

(** A row whose time token the parser refuses makes the whole read fail. *)
Lemma read_csv_bad_time (fp names : list string) (p : string -> res datetime)
  (t0 : string) (rest : list string) (e : exn) :
  In (t0 :: rest) (EVELightCurve.body_rows fp) ->
  p t0 = Raise e ->
  exists e', EVELightCurve.read_csv fp names p = Raise e'.
Proof.
  intros Hin Hp. unfold EVELightCurve.read_csv.
  destruct (EVELightCurve.layout names (EVELightCurve.body_rows fp))
    as [lay|e0]; cbn [bind]; [|eexists; reflexivity].
  destruct (mapM (EVELightCurve.check_width (fst lay))
              (EVELightCurve.body_rows fp)) as [c|e0]; cbn [bind];
    [|eexists; reflexivity].
  assert (Hin' : In t0 (map EVELightCurve.first_token
                          (EVELightCurve.body_rows fp))).
  { apply in_map_iff. exists (t0 :: rest). split; [reflexivity|exact Hin]. }
  destruct (mapM_raises p _ t0 e Hin' Hp) as [e' ->].
  exists e'. reflexivity.
Qed.

Lemma level_0cs_bad_time (fp body : list string) (st : EVELightCurve.header_state)
  (dline t0 : string) (rest : list string) (y mo d : Z) (e : exn) :
  EVELightCurve.read_header (snd (readline fp)) (fst (readline fp))
    EVELightCurve.header_init = Ok (st, dline, body) ->
  EVELightCurve.date_anchor dline = Ok (y, mo, d) ->
  In (t0 :: rest) (EVELightCurve.body_rows body) ->
  EVELightCurve.parser y mo d t0 = Raise e ->
  exists e', EVELightCurve.level_0cs fp = Raise e'.
Proof.
  intros Hhead Hdate Hin Hbad. unfold EVELightCurve.level_0cs.
  destruct (readline fp) as [line0 fp0]. cbn [fst snd] in Hhead.
  rewrite Hhead. cbn [bind].
  destruct (EVELightCurve.build_meta _ _) as [meta|e0]; cbn [bind];
    [|eexists; reflexivity].
  rewrite Hdate. cbn [bind].
  destruct (read_csv_bad_time body
              (EVELightCurve.field_names false (EVELightCurve.header st))
              _ t0 rest e Hin Hbad) as [e' ->].
  exists e'. reflexivity.
Qed.

(** C8 (as amended): with the date anchor of the first line after the
    header, a token that starts with the four digits [HHMM] of a time of
    day gives the timestamp of that day at [HH:MM:00]; anchor 2013-01-15
    and token [0130] give 2013-01-15T01:30:00.  The timestamp is built from
    [int(x[0:2])] and [int(x[2:4])]: a token is refused exactly when one of
    the two conversions fails or the hour or minute is out of range, and a
    refused token fails the whole parse, no row is skipped. *)
Theorem time_token_to_timestamp :
  EVELightCurve.parser 2013 1 15 "0130" = Ok (mk_datetime 2013 1 15 1 30 0) /\
  (forall (y mo d : Z) (h m : nat) (tail : string),
     Datetime.valid y mo d (Z.of_nat h) (Z.of_nat m) = true ->
     EVELightCurve.parser y mo d (hhmm h m ++ tail) =
     Ok (mk_datetime y mo d (Z.of_nat h) (Z.of_nat m) 0)) /\
  (forall (y mo d : Z) (x : string) (dt : datetime),
     EVELightCurve.parser y mo d x = Ok dt <->
     exists h mi,
       Py.int (Py.slice 0 2 x) = Ok h /\
       Py.int (Py.slice 2 4 x) = Ok mi /\
       Datetime.valid y mo d h mi = true /\
       dt = mk_datetime y mo d h mi 0) /\
  (forall (fp body : list string) (st : EVELightCurve.header_state)
          (dline t0 : string) (rest : list string) (y mo d : Z) (e : exn),
     EVELightCurve.read_header (snd (readline fp)) (fst (readline fp))
       EVELightCurve.header_init = Ok (st, dline, body) ->
     EVELightCurve.date_anchor dline = Ok (y, mo, d) ->
     In (t0 :: rest) (EVELightCurve.body_rows body) ->
     EVELightCurve.parser y mo d t0 = Raise e ->
     exists e', EVELightCurve.level_0cs fp = Raise e').
Proof.
  split; [reflexivity|]. split; [exact parser_hhmm|]. split.
  - intros y mo d x dt. rewrite parser_unfold. split.
    + destruct (Py.int (Py.slice 0 2 x)) as [h|e]; [|discriminate].
      destruct (Py.int (Py.slice 2 4 x)) as [mi|e]; [|discriminate].
      destruct (Datetime.valid y mo d h mi) eqn:V; [|discriminate].
      intros [= <-]. exists h, mi. repeat split. exact V.
    + intros (h & mi & -> & -> & -> & ->). reflexivity.
  - exact level_0cs_bad_time.
Qed.

Lemma time_token_to_timestamp_witness :
  EVELightCurve.parser 2010 3 1 (hhmm 23 59 ++ "xyz") =
    Ok (mk_datetime 2010 3 1 23 59 0) /\
  (exists e', EVELightCurve.level_0cs
                (level_0cs_file ["0000 1.0 2.0"; "ab30 1.0 2.0"]) = Raise e').
Proof.
  destruct time_token_to_timestamp as (_ & Hgood & _ & Hbad). split.
  - apply (Hgood 2010 3 1 23%nat 59%nat "xyz"). reflexivity.
  - apply (Hbad (level_0cs_file ["0000 1.0 2.0"; "ab30 1.0 2.0"])
                [nl "0000 1.0 2.0"; nl "ab30 1.0 2.0"]
                (EVELightCurve.mk_header_state header_lines true
                   (EVELightCurve.Bytes "-99"))
                (nl "2013 015 01 15") "ab30" ["1.0"; "2.0"] 2013 1 15
                ValueError).
    + reflexivity.
    + reflexivity.
    + right. left. reflexivity.
    + reflexivity.
Defined.

(** Counterexample to C8 as stated: the three-character token [130] does
    not start with two two-digit groups, yet it is read as 13:00 and its
    row is in the table; the signed token [+1+2] is read as 01:02. *)
Lemma short_time_token_is_accepted :
  starts_with_four_digits "130" = false /\
  EVELightCurve.parser 2013 1 15 "130" = Ok (mk_datetime 2013 1 15 13 0 0) /\
  starts_with_four_digits "+1+2" = false /\
  EVELightCurve.parser 2013 1 15 "+1+2" = Ok (mk_datetime 2013 1 15 1 2 0) /\
  (exists df meta units,
     EVELightCurve.level_0cs (level_0cs_file ["130 1.0 2.0"]) =
       Ok (EVELightCurve.Tuple3 df meta units) /\
     index df = [mk_datetime 2013 1 15 13 0 0]).
Proof.
  repeat split. do 3 eexists. split; reflexivity.
Qed.

(** The scenario of the specification: one row at midnight, the sentinel
    under [fieldA], 3.2 under [fieldB]. *)
Example level_0cs_scenario :
  EVELightCurve.level_0cs (level_0cs_file ["0000 -99 3.2"]) =
  Ok (EVELightCurve.Tuple3
        (mk_frame [mk_datetime 2013 1 15 0 0 0]
                  [Name "fieldA"; Name "fieldB"]
                  [[Num NaN; Num (Fin (32 # 10))]])
        [("Missing data", "-99"); ("HHMM", "hour and minute");
         ("fieldA", "first channel"); ("fieldB", "second channel")]
        EVELightCurve.units_0cs).
Proof. reflexivity. Qed.

(** *** The declaration line *)

Lemma rstrip_LF (s : string) : Py.rstrip (s ++ LF) = Py.rstrip s.
Proof.
  induction s as [|c s IH]; [reflexivity|].
  cbn [append Py.rstrip]. rewrite IH. reflexivity.
Qed.

Lemma strip_LF (s : string) : Py.strip (s ++ LF) = Py.strip s.
Proof.
  unfold Py.strip. induction s as [|c s IH]; [reflexivity|].
  cbn [append Py.lstrip]. destruct (Py.is_space c); [exact IH|].
  apply (rstrip_LF (String c s)).
Qed.

Lemma split_once_none (c : ascii) (s : string) :
  snd (Py.split_once c s) = None -> fst (Py.split_once c s) = s.
Proof.
  induction s as [|a s IH]; [reflexivity|].
  cbn [Py.split_once]. destruct (Ascii.eqb a c); [discriminate|].
  destruct (Py.split_once c s) as [h t]. cbn [fst snd] in *.
  intros H. rewrite (IH H). reflexivity.
Qed.

Lemma split_once_app_LF (s : string) :
  snd (Py.split_once ":" s) = None ->
  snd (Py.split_once ":" (s ++ LF)) = None.
Proof.
  induction s as [|a s IH]; [reflexivity|].
  cbn [append Py.split_once]. destruct (Ascii.eqb a ":"); [discriminate|].
  destruct (Py.split_once ":" s) as [h t].
  destruct (Py.split_once ":" (s ++ LF)) as [h' t'].
  cbn [fst snd] in *. exact IH.
Qed.

(** A header line [; Missing data: v] whose [v] has no colon sets the flag
    and records [v], trimmed. *)
Lemma header_step_missing_line (st : EVELightCurve.header_state) (v : string) :
  Py.contains ":" v = false ->
  EVELightCurve.header_step st (nl ("; Missing data: " ++ v)) =
  Ok (EVELightCurve.mk_header_state
        (EVELightCurve.header st ++ [nl ("; Missing data: " ++ v)])
        true (EVELightCurve.Bytes (Py.strip v))).
Proof.
  intros Hv. unfold EVELightCurve.header_step.
  change (Py.contains "; Missing data:" (nl ("; Missing data: " ++ v)))
    with true.
  cbv iota. rewrite split_unfold.
  change (Py.split_once ":" (nl ("; Missing data: " ++ v)))
    with ("; Missing data", Some (String " " (v ++ LF))).
  cbv iota.
  destruct (split_first ":" (String " " (v ++ LF))) as [t ->].
  cbn [Py.index nth_error of_option bind].
  rewrite contains_char in Hv.
  assert (Hnone : snd (Py.split_once ":" (String " " (v ++ LF))) = None).
  { cbn [Py.split_once].
    change (Ascii.eqb " " ":") with false. cbv iota.
    pose proof (split_once_app_LF v) as H.
    destruct (Py.split_once ":" v) as [h [r|]]; [discriminate|].
    specialize (H eq_refl).
    destruct (Py.split_once ":" (v ++ LF)) as [h' t']. exact H. }
  rewrite (split_once_none _ _ Hnone).
  change (Py.strip (String " " (v ++ LF))) with (Py.strip (v ++ LF)).
  rewrite strip_LF. reflexivity.
Qed.

(** ** The NoRH constructor *)

(** C10: [__init__] stores the empty string under the metadata key
    [detector], whatever the header held there, and the nickname, read
    through the [detector] property, is the empty string. *)
Theorem norh_detector_is_blanked
  (GenericTimeSeries_init : DataFrame Z -> NoRHLightCurve.header_t ->
                            NoRHLightCurve.TimeSeries)
  (detector : NoRHLightCurve.TimeSeries -> NoRHLightCurve.hval)
  (data : DataFrame Z) (header : NoRHLightCurve.header_t) :
  (forall ts, detector ts = detector_of_meta ts) ->
  OrderedDict.get "detector"
    (NoRHLightCurve.meta
       (NoRHLightCurve.__init__ GenericTimeSeries_init detector data header)) =
    Some (NoRHLightCurve.HStr EmptyString) /\
  NoRHLightCurve._nickname
    (NoRHLightCurve.__init__ GenericTimeSeries_init detector data header) =
    Some (NoRHLightCurve.HStr EmptyString).
Proof.
  intros Hdet. unfold NoRHLightCurve.__init__.
  cbn [NoRHLightCurve.meta NoRHLightCurve._nickname NoRHLightCurve.data
       NoRHLightCurve.units].
  split; [apply get_set_same|].
  rewrite Hdet. unfold detector_of_meta. cbn [NoRHLightCurve.meta].
  rewrite get_set_same. reflexivity.
Qed.

Lemma norh_detector_is_blanked_witness :
  OrderedDict.get "detector"
    (NoRHLightCurve.meta
       (NoRHLightCurve.__init__ plain_init detector_of_meta
          (mk_frame [] [] [])
          (norh_header (NoRHLightCurve.HFloat (Fin 1))))) =
    Some (NoRHLightCurve.HStr EmptyString) /\
  NoRHLightCurve._nickname
    (NoRHLightCurve.__init__ plain_init detector_of_meta
       (mk_frame [] [] [])
       (norh_header (NoRHLightCurve.HFloat (Fin 1)))) =
    Some (NoRHLightCurve.HStr EmptyString).
Proof.
  apply (norh_detector_is_blanked plain_init detector_of_meta
           (mk_frame [] [] []) (norh_header (NoRHLightCurve.HFloat (Fin 1)))).
  reflexivity.
Defined.

(** ** The NoRH time axis *)

(** The frame constructor gets a bare string for [columns]: when the time
    axis has been built, the parse ends in its [TypeError]. *)
Lemma parse_unfold (parse_time : string -> res Z)
  (header : NoRHLightCurve.header_t) (data : list pyfloat) :
  NoRHLightCurve.parse parse_time header data =
  match NoRHLightCurve.norh_time parse_time header data with
  | Ok _ => Raise TypeError
  | Raise e => Raise e
  end.
Proof.
  unfold NoRHLightCurve.parse.
  destruct (NoRHLightCurve.norh_time parse_time header data); reflexivity.
Qed.

(** C1 (evaluation of the code): with four samples and a cadence of 2 s the
    time axis that [_parse_file] builds has [int(4 / 2.0)] = 2 entries, at
    0 s and 3 s after the start; with a cadence of 0.875 s it has the four
    entries 0 s, 1 s, 2 s, 3 s, not multiples of the cadence.  In both
    cases, and for a cadence of 1 s as well, no table is returned: the
    frame constructor is called with a bare string for [columns] and
    raises [TypeError]. *)
Theorem norh_time_axis_ignores_cadence (t0 : Z) :
  NoRHLightCurve.linspace 0 3 (Fin 2) = Ok [0%Q; 3%Q] /\
  NoRHLightCurve.norh_time (parse_time_at t0)
    (norh_header (NoRHLightCurve.HFloat (Fin 2))) (samples 4) =
    Ok (map (Z.add t0) [0; 3000000]) /\
  NoRHLightCurve.norh_time (parse_time_at t0)
    (norh_header (NoRHLightCurve.HFloat (Fin (7 # 8)))) (samples 4) =
    Ok (map (Z.add t0) [0; 1000000; 2000000; 3000000]) /\
  NoRHLightCurve.parse (parse_time_at t0)
    (norh_header (NoRHLightCurve.HFloat (Fin 2))) (samples 4) =
    Raise TypeError /\
  NoRHLightCurve.parse (parse_time_at t0)
    (norh_header (NoRHLightCurve.HFloat (Fin (7 # 8)))) (samples 4) =
    Raise TypeError /\
  NoRHLightCurve.parse (parse_time_at t0)
    (norh_header (NoRHLightCurve.HFloat (Fin 1))) (samples 4) =
    Raise TypeError.
Proof.
  repeat split.
Qed.

(** ** Invalid cadences *)




(** What [norh_time] went through when it returns. *)
Lemma norh_time_ok
  (parse_time : string -> res Z) (header : NoRHLightCurve.header_t)
  (data : list pyfloat) (axis : list Z) :
  NoRHLightCurve.norh_time parse_time header data = Ok axis ->
  exists a b t0 v c num sec_array,
    OrderedDict.get "DATE-OBS" header = Some (NoRHLightCurve.HStr a) /\
    OrderedDict.get "CRVAL1" header = Some (NoRHLightCurve.HStr b) /\
    parse_time ((a ++ "T") ++ b)%string = Ok t0 /\
    OrderedDict.get "CDELT1" header = Some v /\
    NoRHLightCurve.np_float v = Ok c /\
    Float.int_div (Z.of_nat (length data)) c = Ok num /\
    NoRHLightCurve.linspace 0 (inject_Z (Z.of_nat (length data) - 1)) num =
      Ok sec_array /\
    axis = map (fun s => t0 + NoRHLightCurve.timedelta s) sec_array.
Proof.
  unfold NoRHLightCurve.norh_time, OrderedDict.item.
  destruct (OrderedDict.get "DATE-OBS" header) as [[a|x|n]|];
    cbn [of_option bind NoRHLightCurve.str_add]; try discriminate.
  destruct (OrderedDict.get "CRVAL1" header) as [[b|x|n]|];
    cbn [of_option bind NoRHLightCurve.str_add NoRHLightCurve.as_str];
    try discriminate.
  destruct (parse_time ((a ++ "T") ++ b)%string) as [t0|e] eqn:Et;
    cbn [bind]; [|discriminate].
  destruct (OrderedDict.get "CDELT1" header) as [v|]; cbn [of_option bind];
    [|discriminate].
  destruct (NoRHLightCurve.np_float v) as [c|e] eqn:Ec; cbn [bind];
    [|discriminate].
  destruct (Float.int_div (Z.of_nat (length data)) c) as [num|e] eqn:Ediv;
    cbn [bind]; [|discriminate].
  destruct (NoRHLightCurve.linspace 0 _ num) as [sec_array|e] eqn:Elin;
    cbn [bind]; [|discriminate].
  intros [= <-].
  exists a, b, t0, v, c, num, sec_array.
  split; [reflexivity|]. split; [reflexivity|]. split; [exact Et|].
  split; [reflexivity|]. split; [exact Ec|]. split; [exact Ediv|].
  split; [exact Elin|reflexivity].
Qed.




(** ** The length of the time axis *)

Lemma set_last_length (stop : Q) (y : list Q) :
  length (NoRHLightCurve.set_last stop y) = length y.
Proof.
  induction y as [|v y IH]; [reflexivity|].
  destruct y as [|v' y]; [reflexivity|].
  change (NoRHLightCurve.set_last stop (v :: v' :: y))
    with (v :: NoRHLightCurve.set_last stop (v' :: y)).
  cbn [length] in *. rewrite IH. reflexivity.
Qed.

Lemma arange_length (n : nat) : length (NoRHLightCurve.arange n) = n.
Proof. unfold NoRHLightCurve.arange. rewrite length_map, length_seq. reflexivity. Qed.

(** [linspace] has as many points as its truncated third argument says. *)
Lemma linspace_length (start stop : Q) (num : pyfloat) (axis : list Q) :
  NoRHLightCurve.linspace start stop num = Ok axis ->
  exists n, Float.to_int num = Ok n /\ 0 <= n /\ length axis = Z.to_nat n.
Proof.
  unfold NoRHLightCurve.linspace.
  destruct (Float.to_int num) as [n|e]; cbn [bind]; [|discriminate].
  destruct (n <? 0) eqn:Eneg; [discriminate|].
  apply Z.ltb_ge in Eneg. intros H. exists n. split; [reflexivity|].
  split; [exact Eneg|].
  destruct (1 <? n); injection H as <-.
  - rewrite set_last_length, length_map, arange_length. reflexivity.
  - rewrite length_map, arange_length. reflexivity.
Qed.

(** ** A cadence of one second *)

(** A whole number of seconds is that many million microseconds. *)
Lemma timedelta_whole (q : Q) (k : Z) :
  q == inject_Z k -> NoRHLightCurve.timedelta q = k * 1000000.
Proof.
  intros H. unfold NoRHLightCurve.timedelta, NoRHLightCurve.round_half_even.
  assert (Hr : q * inject_Z 1000000 == inject_Z (k * 1000000)).
  { rewrite H, inject_Z_mult. reflexivity. }
  assert (Hf : Qfloor (q * inject_Z 1000000) = k * 1000000).
  { rewrite Hr. apply Qfloor_Z. }
  rewrite Hf.
  assert (Hc : (q * inject_Z 1000000 - inject_Z (k * 1000000) ?= 1 # 2)%Q = Lt).
  { rewrite Hr. apply Qlt_alt.
    setoid_replace (inject_Z (k * 1000000) - inject_Z (k * 1000000))%Q
      with 0%Q by ring.
    reflexivity. }
  rewrite Hc. reflexivity.
Qed.








(** * Further properties of the two modules *)

(** ** The header loop *)

Lemma contains_cons (needle : string) (a : ascii) (s : string) :
  Py.contains needle (String a s) =
  (Py.startswith needle (String a s) || Py.contains needle s)%bool.
Proof. reflexivity. Qed.

Lemma contains_char_cons (c a : ascii) (s : string) :
  Py.contains (String c EmptyString) (String a s) =
  (Ascii.eqb a c || Py.contains (String c EmptyString) s)%bool.
Proof.
  rewrite contains_cons, startswith_cons, (Ascii.eqb_sym c a).
  destruct (Ascii.eqb a c); reflexivity.
Qed.

(** A byte of a prefix of [s] is a byte of [s]. *)
Lemma startswith_has_char (c : ascii) (p s : string) :
  Py.contains (String c EmptyString) p = true ->
  Py.startswith p s = true ->
  Py.contains (String c EmptyString) s = true.
Proof.
  revert s. induction p as [|a p IH]; intros s Hc Hp; [discriminate|].
  apply startswith_head in Hp as (s' & -> & Hp).
  rewrite contains_char_cons in Hc |- *.
  destruct (Ascii.eqb a c); [reflexivity|].
  cbn [orb] in Hc |- *. apply IH; assumption.
Qed.

(** A byte of a substring of [s] is a byte of [s]. *)
Lemma contains_has_char (c : ascii) (p s : string) :
  Py.contains (String c EmptyString) p = true ->
  Py.contains p s = true ->
  Py.contains (String c EmptyString) s = true.
Proof.
  intros Hc. induction s as [|a s IH]; intros Hp.
  - cbn in Hp. rewrite orb_false_r in Hp.
    apply (startswith_has_char c p EmptyString Hc Hp).
  - rewrite contains_cons in Hp. apply orb_true_iff in Hp as [Hp|Hp].
    + apply (startswith_has_char c p _ Hc Hp).
    + rewrite contains_char_cons. rewrite (IH Hp). apply orb_true_r.
Qed.

(** A line with a colon splits into at least two pieces. *)
Lemma split_second (s : string) :
  Py.contains ":" s = true ->
  exists h x t, Py.split ":" s = h :: x :: t.
Proof.
  intros H. rewrite contains_char in H. rewrite split_unfold.
  destruct (Py.split_once ":" s) as [h [rest|]]; [|discriminate].
  destruct (split_first ":" rest) as [t ->].
  exists h, (fst (Py.split_once ":" rest)), t. reflexivity.
Qed.

(** The loop body never raises, and it appends the line to the header. *)
Lemma header_step_total (st : EVELightCurve.header_state) (line : string) :
  EVELightCurve.header_step st line =
  Ok (EVELightCurve.mk_header_state
        (EVELightCurve.header st ++ [line])
        (declares_missing line || EVELightCurve.is_missing_data st)
        (if declares_missing line
         then EVELightCurve.Bytes (declared_value line)
         else EVELightCurve.missing_data_val st)).
Proof.
  unfold EVELightCurve.header_step, declares_missing, declared_value.
  destruct (Py.contains "; Missing data:" line) eqn:E; [|reflexivity].
  assert (Hcolon : Py.contains ":" line = true).
  { apply (contains_has_char ":" "; Missing data:" line); [reflexivity|exact E]. }
  destruct (split_second line Hcolon) as (h & x & t & ->). reflexivity.
Qed.

Lemma read_header_unfold (fp : list string) (line : string)
  (st : EVELightCurve.header_state) :
  EVELightCurve.read_header fp line st =
  if is_header_line line then
    match EVELightCurve.header_step st line with
    | Raise e => Raise e
    | Ok st' =>
        match fp with
        | [] => Ok (st', EmptyString, [])
        | l :: fp' => EVELightCurve.read_header fp' l st'
        end
    end
  else Ok (st, line, fp).
Proof. destruct fp; reflexivity. Qed.

Lemma last_declaration_snoc (l : list string) (x : string) :
  last_declaration (l ++ [x]) =
  if declares_missing x then Some x else last_declaration l.
Proof.
  induction l as [|y l IH]; cbn [app last_declaration].
  - destruct (declares_missing x); reflexivity.
  - rewrite IH. destruct (declares_missing x); [reflexivity|].
    destruct (last_declaration l); reflexivity.
Qed.

Lemma read_header_general (fp : list string) :
  forall (line : string) (st : EVELightCurve.header_state),
  exists st',
    EVELightCurve.read_header fp line st =
      Ok (st',
          fst (readline (drop_while is_header_line (line :: fp))),
          snd (readline (drop_while is_header_line (line :: fp)))) /\
    EVELightCurve.header st' =
      (EVELightCurve.header st ++ take_while is_header_line (line :: fp))%list /\
    (missing_consistent st -> missing_consistent st').
Proof.
  induction fp as [|l fp IH]; intros line st;
    rewrite read_header_unfold; cbn [take_while drop_while];
    destruct (is_header_line line) eqn:Eh.
  - rewrite header_step_total. eexists. split; [reflexivity|].
    cbn [EVELightCurve.header]. split; [reflexivity|].
    unfold missing_consistent. cbn [EVELightCurve.header
      EVELightCurve.is_missing_data EVELightCurve.missing_data_val].
    rewrite last_declaration_snoc.
    destruct (declares_missing line); [intros _; split; reflexivity|].
    cbn [orb]. exact (fun H => H).
  - exists st. rewrite app_nil_r. repeat split. exact (fun H => H).
  - rewrite header_step_total.
    destruct (IH l (EVELightCurve.mk_header_state
                      (EVELightCurve.header st ++ [line])
                      (declares_missing line || EVELightCurve.is_missing_data st)
                      (if declares_missing line
                       then EVELightCurve.Bytes (declared_value line)
                       else EVELightCurve.missing_data_val st)))
      as (st' & Hrun & Hhead & Hcons).
    exists st'. split; [exact Hrun|]. split.
    + rewrite Hhead. cbn [EVELightCurve.header]. rewrite <- app_assoc.
      reflexivity.
    + intros Hst. apply Hcons. revert Hst.
      unfold missing_consistent. cbn [EVELightCurve.header
        EVELightCurve.is_missing_data EVELightCurve.missing_data_val].
      rewrite last_declaration_snoc.
      destruct (declares_missing line); [intros _; split; reflexivity|].
      cbn [orb]. exact (fun H => H).
  - exists st. rewrite app_nil_r. repeat split. exact (fun H => H).
Qed.

(** What the header loop of [_parse_level_0cs] does on a whole file. *)
Lemma read_header_file (fp : list string) :
  exists st,
    EVELightCurve.read_header (snd (readline fp)) (fst (readline fp))
      EVELightCurve.header_init =
      Ok (st,
          fst (readline (drop_while is_header_line fp)),
          snd (readline (drop_while is_header_line fp))) /\
    EVELightCurve.header st = take_while is_header_line fp /\
    missing_consistent st.
Proof.
  destruct fp as [|l fp].
  - exists EVELightCurve.header_init. repeat split.
  - cbn [readline fst snd].
    destruct (read_header_general fp l EVELightCurve.header_init)
      as (st & Hrun & Hhead & Hcons).
    exists st. split; [exact Hrun|]. split; [exact Hhead|].
    apply Hcons. split; reflexivity.
Qed.

Lemma take_drop_while (p : string -> bool) (l : list string) :
  (take_while p l ++ drop_while p l)%list = l.
Proof.
  induction l as [|x l IH]; [reflexivity|].
  cbn [take_while drop_while]. destruct (p x); [|reflexivity].
  cbn [app]. rewrite IH. reflexivity.
Qed.

Lemma take_while_all (p : string -> bool) (l : list string) :
  Forall (fun x => p x = true) (take_while p l).
Proof.
  induction l as [|x l IH]; [constructor|].
  cbn [take_while]. destruct (p x) eqn:E; constructor; assumption.
Qed.

Lemma drop_while_head (p : string -> bool) (l : list string) :
  match drop_while p l with
  | [] => take_while p l = l
  | x :: _ => p x = false
  end.
Proof.
  induction l as [|x l IH]; [reflexivity|].
  cbn [take_while drop_while]. destruct (p x) eqn:E; [|exact E].
  destruct (drop_while p l); [rewrite IH; reflexivity|exact IH].
Qed.

(** X1: the header loop never raises.  It captures exactly the leading
    lines that start with [;], in order, and stops behind the first line
    that does not: that line (the date line) and the lines after it are
    what is left of the file; at end of file the line is empty. *)
Theorem header_loop_splits_file (fp : list string) :
  exists st dline body,
    EVELightCurve.read_header (snd (readline fp)) (fst (readline fp))
      EVELightCurve.header_init = Ok (st, dline, body) /\
    Forall (fun l => is_header_line l = true) (EVELightCurve.header st) /\
    is_header_line dline = false /\
    ((EVELightCurve.header st ++ dline :: body)%list = fp \/
     (EVELightCurve.header st = fp /\ dline = EmptyString /\ body = [])).
Proof.
  destruct (read_header_file fp) as (st & Hrun & Hhead & _).
  exists st. do 2 eexists. split; [exact Hrun|].
  rewrite Hhead. split; [apply take_while_all|].
  pose proof (drop_while_head is_header_line fp) as Hd.
  pose proof (take_drop_while is_header_line fp) as Hsplit.
  destruct (drop_while is_header_line fp) as [|x rest]; cbn [readline fst snd].
  - split; [reflexivity|]. right. repeat split. exact Hd.
  - split; [exact Hd|]. left. exact Hsplit.
Qed.

(** X2: after the header loop the missing-data state is that of the last
    header line containing [; Missing data:]: the flag is set and the value
    is the trimmed second colon-separated piece of that line; without such
    a line the flag is clear and the value is still [numpy.nan]. *)
Theorem missing_declaration_last_wins (fp : list string) :
  exists st dline body,
    EVELightCurve.read_header (snd (readline fp)) (fst (readline fp))
      EVELightCurve.header_init = Ok (st, dline, body) /\
    match last_declaration (take_while is_header_line fp) with
    | Some l =>
        EVELightCurve.is_missing_data st = true /\
        EVELightCurve.missing_data_val st =
          EVELightCurve.Bytes (declared_value l)
    | None =>
        EVELightCurve.is_missing_data st = false /\
        EVELightCurve.missing_data_val st = EVELightCurve.NumpyNan
    end.
Proof.
  destruct (read_header_file fp) as (st & Hrun & Hhead & Hcons).
  exists st. do 2 eexists. split; [exact Hrun|].
  unfold missing_consistent in Hcons. rewrite Hhead in Hcons. exact Hcons.
Qed.

(** ** The metadata loop as a sequence of assignments *)

Lemma meta_step_total (meta : OrderedDict.t string) (hline : string) :
  EVELightCurve.meta_step meta hline =
  if malformed_special hline then Raise IndexError
  else Ok (match meta_entry hline with
           | Some e => update meta e
           | None => meta
           end).
Proof.
  unfold EVELightCurve.meta_step, malformed_special, meta_entry, update.
  fold (is_marker_line hline). fold (is_special hline).
  destruct (is_marker_line hline); [reflexivity|].
  unfold after_first_colon, meta_key, meta_value.
  destruct (is_special hline); cbn [negb andb].
  - rewrite contains_char. unfold Py.split1.
    destruct (Py.split_once ":" hline) as [h [rest|]]; reflexivity.
  - rewrite contains_char. unfold EVELightCurve.before_colon.
    rewrite split_pieces_once, split_unfold.
    destruct (Py.split_once ":" hline) as [h [rest|]]; [|reflexivity].
    destruct (split_first ":" rest) as [t ->]. reflexivity.
Qed.

Lemma meta_entries_cons (l : string) (header : list string) :
  meta_entries (l :: header) =
  (match meta_entry l with Some e => [e] | None => [] end ++
   meta_entries header)%list.
Proof. reflexivity. Qed.

(** The loop raises [IndexError] on the first malformed line; otherwise it
    performs the assignments of the entries, in file order. *)
Lemma build_meta_fold (header : list string) :
  forall meta,
    EVELightCurve.build_meta meta header =
    if existsb malformed_special header then Raise IndexError
    else Ok (fold_left update (meta_entries header) meta).
Proof.
  induction header as [|l header IH]; intros meta; [reflexivity|].
  cbn [EVELightCurve.build_meta existsb]. rewrite meta_step_total.
  destruct (malformed_special l); [reflexivity|].
  cbn [bind orb]. rewrite IH, meta_entries_cons.
  destruct (existsb malformed_special header); [reflexivity|].
  destruct (meta_entry l) as [e|]; reflexivity.
Qed.

Lemma mem_In (k : string) (l : list string) :
  mem k l = true <-> In k l.
Proof.
  unfold mem. rewrite existsb_exists. split.
  - intros (x & Hin & Hx). apply String.eqb_eq in Hx. subst x. exact Hin.
  - intros Hin. exists k. split; [exact Hin|apply String.eqb_refl].
Qed.

Lemma keys_update (d : OrderedDict.t string) (e : string * string) :
  OrderedDict.keys (update d e) =
  if mem (fst e) (OrderedDict.keys d) then OrderedDict.keys d
  else (OrderedDict.keys d ++ [fst e])%list.
Proof.
  unfold update. destruct (mem (fst e) (OrderedDict.keys d)) eqn:E.
  - apply keys_set_present. apply mem_In. exact E.
  - apply keys_set_absent. intros Hin. apply mem_In in Hin. congruence.
Qed.

Lemma keys_fold (es : list (string * string)) :
  forall d,
    OrderedDict.keys (fold_left update es d) =
    first_occurrences (OrderedDict.keys d) (map fst es).
Proof.
  induction es as [|e es IH]; intros d; [reflexivity|].
  cbn [fold_left map first_occurrences]. rewrite IH, keys_update.
  reflexivity.
Qed.

Lemma first_occurrences_NoDup (ks : list string) :
  forall seen, NoDup seen -> NoDup (first_occurrences seen ks).
Proof.
  induction ks as [|k ks IH]; intros seen Hseen; [exact Hseen|].
  cbn [first_occurrences]. apply IH.
  destruct (mem k seen) eqn:E; [exact Hseen|].
  apply NoDup_app; [exact Hseen | repeat constructor; intros [] |].
  intros x Hx [<-|[]]. apply mem_In in Hx. congruence.
Qed.

Lemma In_set (k v : string) (d : OrderedDict.t string) (kv : string * string) :
  In kv (OrderedDict.set k v d) -> kv = (k, v) \/ In kv d.
Proof.
  induction d as [|[k' v'] d IH]; cbn.
  - intros [<-|[]]. left. reflexivity.
  - destruct (String.eqb k' k); cbn.
    + intros [<-|H]; [left; reflexivity|right; right; exact H].
    + intros [<-|H]; [right; left; reflexivity|].
      destruct (IH H) as [->|H']; [left; reflexivity|right; right; exact H'].
Qed.

Lemma In_fold_update (es : list (string * string)) (kv : string * string) :
  forall d, In kv (fold_left update es d) -> In kv d \/ In kv es.
Proof.
  induction es as [|e es IH]; intros d H; [left; exact H|].
  cbn [fold_left] in H. destruct (IH _ H) as [H'|H'].
  - unfold update in H'. destruct (In_set _ _ _ _ H') as [->|H''].
    + right. left. destruct e; reflexivity.
    + left. exact H''.
  - right. right. exact H'.
Qed.

(** ** Trimming *)

Lemma lstrip_cases (s : string) :
  Py.lstrip s = EmptyString \/
  exists c t, Py.lstrip s = String c t /\ Py.is_space c = false.
Proof.
  induction s as [|a s IH]; [left; reflexivity|].
  cbn [Py.lstrip]. destruct (Py.is_space a) eqn:E; [exact IH|].
  right. exists a, s. split; [reflexivity|exact E].
Qed.

Lemma rstrip_idem (s : string) : Py.rstrip (Py.rstrip s) = Py.rstrip s.
Proof.
  induction s as [|a s IH]; [reflexivity|].
  cbn [Py.rstrip]. destruct (Py.rstrip s) as [|b r] eqn:E.
  - destruct (Py.is_space a) eqn:Ea; [reflexivity|].
    cbn [Py.rstrip]. rewrite Ea. reflexivity.
  - change (Py.rstrip (String a (String b r)))
      with (match Py.rstrip (String b r) with
            | EmptyString =>
                if Py.is_space a then EmptyString else String a EmptyString
            | String x y => String a (String x y)
            end).
    rewrite IH. reflexivity.
Qed.

Lemma rstrip_keeps_head (c : ascii) (t : string) :
  Py.is_space c = false ->
  exists r, Py.rstrip (String c t) = String c r.
Proof.
  intros Hc. cbn [Py.rstrip]. destruct (Py.rstrip t) as [|b r].
  - rewrite Hc. exists EmptyString. reflexivity.
  - exists (String b r). reflexivity.
Qed.

(** Trimming twice is trimming once. *)
Lemma strip_idem (s : string) : Py.strip (Py.strip s) = Py.strip s.
Proof.
  unfold Py.strip.
  destruct (lstrip_cases s) as [->|(c & t & -> & Hc)]; [reflexivity|].
  destruct (rstrip_keeps_head c t Hc) as [r Hr].
  rewrite Hr. cbn [Py.lstrip]. rewrite Hc, <- Hr. apply rstrip_idem.
Qed.

Lemma lstrip_no_char (c : ascii) (s : string) :
  Py.contains (String c EmptyString) s = false ->
  Py.contains (String c EmptyString) (Py.lstrip s) = false.
Proof.
  induction s as [|a s IH]; [intros _; reflexivity|].
  intros H. cbn [Py.lstrip]. destruct (Py.is_space a); [|exact H].
  apply IH. rewrite contains_char_cons in H.
  apply orb_false_iff in H as [_ H]. exact H.
Qed.

Lemma rstrip_no_char (c : ascii) (s : string) :
  Py.contains (String c EmptyString) s = false ->
  Py.contains (String c EmptyString) (Py.rstrip s) = false.
Proof.
  induction s as [|a s IH]; [intros _; reflexivity|].
  intros H. rewrite contains_char_cons in H.
  apply orb_false_iff in H as [Ha H]. specialize (IH H).
  cbn [Py.rstrip]. destruct (Py.rstrip s) as [|b r].
  - destruct (Py.is_space a); [reflexivity|].
    rewrite contains_char_cons, Ha. reflexivity.
  - rewrite contains_char_cons, Ha, IH. reflexivity.
Qed.

Lemma strip_no_char (c : ascii) (s : string) :
  Py.contains (String c EmptyString) s = false ->
  Py.contains (String c EmptyString) (Py.strip s) = false.
Proof.
  intros H. unfold Py.strip. apply rstrip_no_char, lstrip_no_char, H.
Qed.

Lemma replace_no_char (a b : ascii) (s : string) :
  Ascii.eqb b a = false ->
  Py.contains (String a EmptyString) (Py.replace a b s) = false.
Proof.
  intros Hab. induction s as [|c s IH]; [reflexivity|].
  cbn [Py.replace]. rewrite contains_char_cons, IH, orb_false_r.
  destruct (Ascii.eqb c a) eqn:E; [exact Hab|exact E].
Qed.

(** A cleaned piece is trimmed and has no [;]. *)
Lemma clean_is_clean (piece : string) :
  Py.strip (EVELightCurve.clean piece) = EVELightCurve.clean piece /\
  Py.contains ";" (EVELightCurve.clean piece) = false.
Proof.
  unfold EVELightCurve.clean. split; [apply strip_idem|].
  apply strip_no_char, replace_no_char. reflexivity.
Qed.

Lemma meta_entry_is_trimmed (l : string) (k v : string) :
  meta_entry l = Some (k, v) ->
  Py.strip k = k /\ Py.contains ";" k = false /\ Py.strip v = v.
Proof.
  unfold meta_entry. destruct (is_marker_line l); [discriminate|].
  destruct (after_first_colon l) as [rest|]; [|discriminate].
  intros [= <- <-]. unfold meta_key, meta_value.
  destruct (clean_is_clean (fst (Py.split_once ":" l))) as [H1 H2].
  split; [exact H1|]. split; [exact H2|].
  destruct (is_special l); apply strip_idem.
Qed.

Lemma In_meta_entries (header : list string) (kv : string * string) :
  In kv (meta_entries header) ->
  exists l, In l header /\ meta_entry l = Some kv.
Proof.
  unfold meta_entries. rewrite in_flat_map. intros (l & Hl & Hkv).
  exists l. split; [exact Hl|].
  destruct (meta_entry l) as [e|]; [|destruct Hkv].
  destruct Hkv as [->|[]]. reflexivity.
Qed.

(** ** Properties of the metadata *)

(** X3: the metadata loop raises exactly when some header line, other than
    the two marker lines, contains [Created] or [Source] but no colon; the
    exception is [IndexError]. *)
Theorem meta_raises_on_special_line_without_colon
  (meta : OrderedDict.t string) (header : list string) (e : exn) :
  EVELightCurve.build_meta meta header = Raise e <->
  e = IndexError /\
  exists l, In l header /\ is_marker_line l = false /\
            is_special l = true /\ Py.contains ":" l = false.
Proof.
  rewrite build_meta_fold.
  destruct (existsb malformed_special header) eqn:E.
  - apply existsb_exists in E as (l & Hin & Hl).
    unfold malformed_special in Hl.
    apply andb_true_iff in Hl as [Hl Hc].
    apply andb_true_iff in Hl as [Hm Hs].
    apply negb_true_iff in Hm, Hc.
    split.
    + intros [= <-]. split; [reflexivity|].
      exists l. repeat split; assumption.
    + intros [-> _]. reflexivity.
  - split; [discriminate|].
    intros (_ & l & Hin & Hm & Hs & Hc).
    assert (Hbad : existsb malformed_special header = true).
    { apply existsb_exists. exists l. split; [exact Hin|].
      unfold malformed_special. rewrite Hm, Hs, Hc. reflexivity. }
    congruence.
Qed.

(** X4: the keys of the metadata are the keys the header lines write, each
    once, in the order of their first appearance in the file. *)
Theorem meta_keys_in_file_order
  (header : list string) (meta : OrderedDict.t string) :
  EVELightCurve.build_meta OrderedDict.empty header = Ok meta ->
  OrderedDict.keys meta =
    first_occurrences [] (map fst (meta_entries header)) /\
  NoDup (OrderedDict.keys meta).
Proof.
  rewrite build_meta_fold.
  destruct (existsb malformed_special header); [discriminate|].
  intros [= <-]. rewrite keys_fold. split; [reflexivity|].
  apply first_occurrences_NoDup. constructor.
Qed.

Lemma meta_keys_in_file_order_witness :
  OrderedDict.keys
    [("Created", "2011"); ("Note", "b"); ("Missing data", "-99")] =
    first_occurrences []
      (map fst (meta_entries
                  [nl "; Created: 2011"; nl "; Note: a"; nl "; Format:";
                   nl "; Missing data: -99"; nl "; Note: b"])) /\
  NoDup (OrderedDict.keys
           [("Created", "2011"); ("Note", "b"); ("Missing data", "-99")]).
Proof.
  apply (meta_keys_in_file_order
           [nl "; Created: 2011"; nl "; Note: a"; nl "; Format:";
            nl "; Missing data: -99"; nl "; Note: b"]).
  reflexivity.
Defined.

(** X5: every key of the metadata is trimmed and free of [;], and every
    value is trimmed. *)
Theorem meta_is_trimmed (header : list string) (meta : OrderedDict.t string) :
  EVELightCurve.build_meta OrderedDict.empty header = Ok meta ->
  Forall (fun kv => Py.strip (fst kv) = fst kv /\
                    Py.contains ";" (fst kv) = false /\
                    Py.strip (snd kv) = snd kv) meta.
Proof.
  rewrite build_meta_fold.
  destruct (existsb malformed_special header); [discriminate|].
  intros [= <-]. apply Forall_forall. intros [k v] Hin.
  destruct (In_fold_update _ _ _ Hin) as [[]|Hes].
  destruct (In_meta_entries _ _ Hes) as (l & _ & Hl).
  exact (meta_entry_is_trimmed l k v Hl).
Qed.

Lemma meta_is_trimmed_witness :
  Forall (fun kv => Py.strip (fst kv) = fst kv /\
                    Py.contains ";" (fst kv) = false /\
                    Py.strip (snd kv) = snd kv)
    [("Created", "Tue Jun 21 00:10:03 2011 UTC"); ("odd  key", "x")].
Proof.
  apply (meta_is_trimmed
           [nl ";  Created : Tue Jun 21 00:10:03 2011 UTC ";
            nl ";; odd; key :  x  "]).
  reflexivity.
Defined.

(** ** The level-0CS parser on the lines of a file *)

(** [level_0cs] written over the three parts of the file: header lines,
    date line, body. *)
Lemma level_0cs_by_parts (fp : list string) :
  EVELightCurve.level_0cs fp =
  (meta <- EVELightCurve.build_meta OrderedDict.empty (header_of fp) ;;
   ymd <- EVELightCurve.date_anchor (date_line_of fp) ;;
   data <- EVELightCurve.read_csv (body_of fp) (fields_of fp)
             (EVELightCurve.parser (fst (fst ymd)) (snd (fst ymd)) (snd ymd)) ;;
   data' <- replace_missing (header_of fp) data ;;
   Ok (EVELightCurve.Tuple3 data' meta EVELightCurve.units_0cs)).
Proof.
  destruct (read_header_file fp) as (st & Hrun & Hhead & Hcons).
  unfold EVELightCurve.level_0cs, header_of, date_line_of, body_of, fields_of,
    replace_missing.
  destruct (readline fp) as [line0 fp0]. cbn [fst snd] in Hrun.
  rewrite Hrun. cbn [bind]. rewrite Hhead.
  destruct (EVELightCurve.build_meta _ _) as [meta|e]; cbn [bind];
    [|reflexivity].
  destruct (EVELightCurve.date_anchor _) as [[[y mo] d]|e]; cbn [bind fst snd];
    [|reflexivity].
  destruct (EVELightCurve.read_csv _ _ _) as [data|e]; cbn [bind];
    [|reflexivity].
  unfold missing_consistent in Hcons. rewrite Hhead in Hcons.
  unfold header_of.
  destruct (last_declaration (take_while is_header_line fp)) as [l|];
    destruct Hcons as [Hflag Hval]; rewrite Hflag.
  - rewrite Hval. cbn [EVELightCurve.float_of_missing bind].
    destruct (Float.of_bytes (declared_value l)); reflexivity.
  - reflexivity.
Qed.

Lemma drop_while_all (p : string -> bool) (l : list string) :
  Forall (fun x => p x = true) l -> drop_while p l = [].
Proof.
  induction 1 as [|x l Hx _ IH]; [reflexivity|].
  cbn [drop_while]. rewrite Hx. exact IH.
Qed.

(** X6: a file that consists of header lines only (the empty file
    included) has no date line, and the parse raises. *)
Theorem header_only_file_raises (fp : list string) :
  Forall (fun l => is_header_line l = true) fp ->
  exists e, EVELightCurve.level_0cs fp = Raise e.
Proof.
  intros Hall. rewrite level_0cs_by_parts.
  destruct (EVELightCurve.build_meta _ _) as [meta|e]; cbn [bind];
    [|eexists; reflexivity].
  unfold date_line_of. rewrite (drop_while_all _ _ Hall).
  eexists. reflexivity.
Qed.

Lemma header_only_file_raises_witness :
  exists e,
    EVELightCurve.level_0cs
      [nl "; EVE L0CS"; nl "; Column descriptions:"; nl "; Format:"] = Raise e.
Proof.
  apply (header_only_file_raises
           [nl "; EVE L0CS"; nl "; Column descriptions:"; nl "; Format:"]).
  repeat constructor.
Defined.

(** ** The date line *)

Lemma split_once_app (c : ascii) (a rest : string) :
  Py.contains (String c EmptyString) a = false ->
  Py.split_once c (a ++ String c rest) = (a, Some rest).
Proof.
  induction a as [|x a IH]; intros H.
  - cbn. rewrite Ascii.eqb_refl. reflexivity.
  - rewrite contains_char_cons in H. apply orb_false_iff in H as [Hx H].
    cbn [append Py.split_once]. rewrite Hx, (IH H). reflexivity.
Qed.

Lemma split_app (c : ascii) (a rest : string) :
  Py.contains (String c EmptyString) a = false ->
  Py.split c (a ++ String c rest) = a :: Py.split c rest.
Proof.
  intros H. rewrite split_unfold, (split_once_app c a rest H). reflexivity.
Qed.

Lemma split_single (c : ascii) (a : string) :
  Py.contains (String c EmptyString) a = false ->
  Py.split c a = [a].
Proof.
  intros H. rewrite split_unfold. rewrite contains_char in H.
  pose proof (split_once_none c a) as Hfst.
  destruct (Py.split_once c a) as [h [r|]]; [discriminate|].
  cbn [fst snd] in Hfst. rewrite (Hfst eq_refl). reflexivity.
Qed.

(** X7: on a date line [YYYY DOY MM DD] whose four fields are separated by
    single spaces, the anchor is [int(YYYY)], [int(MM)], [int(DD)]; the
    day of the year is not read, and the line feed behind [DD] does not
    matter to [int]. *)
Theorem date_anchor_of_date_line (y doy m d : string) :
  Py.contains " " y = false ->
  Py.contains " " doy = false ->
  Py.contains " " m = false ->
  Py.contains " " d = false ->
  EVELightCurve.date_anchor (y ++ " " ++ doy ++ " " ++ m ++ " " ++ d) =
  (year <- Py.int y ;; month <- Py.int m ;; day <- Py.int d ;;
   Ok (year, month, day)).
Proof.
  intros Hy Hdoy Hm Hd. unfold EVELightCurve.date_anchor.
  change (y ++ " " ++ doy ++ " " ++ m ++ " " ++ d)%string
    with (y ++ String " " (doy ++ String " " (m ++ String " " d)))%string.
  rewrite (split_app " " y _ Hy), (split_app " " doy _ Hdoy),
    (split_app " " m _ Hm), (split_single " " d Hd).
  reflexivity.
Qed.

Lemma date_anchor_of_date_line_witness :
  EVELightCurve.date_anchor
    ("2013" ++ " " ++ "015" ++ " " ++ "01" ++ " " ++ nl "15") =
  Ok (2013, 1, 15).
Proof.
  apply (date_anchor_of_date_line "2013" "015" "01" (nl "15"));
    reflexivity.
Defined.

(** ** The frame of the level-0CS parser *)

Lemma level_0cs_returns (fp : list string) (df : DataFrame datetime)
  (meta : OrderedDict.t string) (units : OrderedDict.t unit_t) :
  EVELightCurve.level_0cs fp = Ok (EVELightCurve.Tuple3 df meta units) ->
  exists y mo d df0,
    EVELightCurve.build_meta OrderedDict.empty (header_of fp) = Ok meta /\
    EVELightCurve.date_anchor (date_line_of fp) = Ok (y, mo, d) /\
    EVELightCurve.read_csv (body_of fp) (fields_of fp)
      (EVELightCurve.parser y mo d) = Ok df0 /\
    replace_missing (header_of fp) df0 = Ok df /\
    units = EVELightCurve.units_0cs.
Proof.
  rewrite level_0cs_by_parts.
  destruct (EVELightCurve.build_meta _ _) as [meta0|e]; cbn [bind];
    [|discriminate].
  destruct (EVELightCurve.date_anchor _) as [[[y mo] d]|e]; cbn [bind fst snd];
    [|discriminate].
  destruct (EVELightCurve.read_csv _ _ _) as [df0|e] eqn:Ecsv; cbn [bind];
    [|discriminate].
  destruct (replace_missing _ df0) as [df1|e] eqn:Erep; cbn [bind];
    [|discriminate].
  intros [= <- <- <-]. exists y, mo, d, df0. repeat split; assumption.
Qed.

Lemma replace_missing_shape (header : list string) (d0 d : DataFrame datetime) :
  replace_missing header d0 = Ok d ->
  index d = index d0 /\ columns d = columns d0 /\
  exists f, values d = map (map f) (values d0).
Proof.
  unfold replace_missing. destruct (last_declaration header) as [l|].
  - destruct (Float.of_bytes (declared_value l)) as [x|e]; cbn [bind];
      [|discriminate].
    intros [= <-]. repeat split. exists (Frame.mask_cell x). reflexivity.
  - intros [= <-]. repeat split. exists (fun c => c).
    rewrite (map_ext _ (fun r => r)) by (intros r; apply map_id).
    symmetry. apply map_id.
Qed.

Lemma mapM_In {A B : Type} (f : A -> res B) (l : list A) (l' : list B) (b : B) :
  mapM f l = Ok l' -> In b l' -> exists a, In a l /\ f a = Ok b.
Proof.
  revert l'. induction l as [|x l IH]; intros l' H Hb.
  - injection H as <-. destruct Hb.
  - cbn [mapM] in H.
    destruct (f x) as [y|e] eqn:Ex; cbn [bind] in H; [|discriminate].
    destruct (mapM f l) as [ys|e]; cbn [bind] in H; [|discriminate].
    injection H as <-. destruct Hb as [<-|Hb].
    + exists x. split; [left; reflexivity|exact Ex].
    + destruct (IH ys eq_refl Hb) as (a & Ha & Hfa).
      exists a. split; [right; exact Ha|exact Hfa].
Qed.

Lemma mapM_Forall {A B : Type} (f : A -> res B) (l : list A) (l' : list B) :
  mapM f l = Ok l' -> Forall (fun a => exists b, f a = Ok b) l.
Proof.
  revert l'. induction l as [|x l IH]; intros l' H.
  - constructor.
  - cbn [mapM] in H.
    destruct (f x) as [y|e] eqn:Ex; cbn [bind] in H; [|discriminate].
    destruct (mapM f l) as [ys|e]; cbn [bind] in H; [|discriminate].
    constructor; [exists y; exact Ex|exact (IH ys eq_refl)].
Qed.

(** What [read_csv] went through when it returns a frame. *)
Lemma read_csv_ok (fp names : list string) (p : string -> res datetime)
  (df : DataFrame datetime) :
  EVELightCurve.read_csv fp names p = Ok df ->
  exists width labels idx,
    EVELightCurve.layout names (EVELightCurve.body_rows fp) =
      Ok (width, labels) /\
    Forall (fun toks => (length toks <= S width)%nat)
      (EVELightCurve.body_rows fp) /\
    mapM p (map EVELightCurve.first_token (EVELightCurve.body_rows fp)) =
      Ok idx /\
    df = mk_frame idx labels
           (map (EVELightCurve.row_cells (EVELightCurve.body_rows fp) width)
              (EVELightCurve.body_rows fp)).
Proof.
  unfold EVELightCurve.read_csv.
  destruct (EVELightCurve.layout names (EVELightCurve.body_rows fp))
    as [[width labels]|e]; cbn [bind fst snd]; [|discriminate].
  destruct (mapM (EVELightCurve.check_width width) (EVELightCurve.body_rows fp))
    as [checked|e] eqn:Echk; cbn [bind]; [|discriminate].
  destruct (mapM p (map EVELightCurve.first_token (EVELightCurve.body_rows fp)))
    as [idx|e] eqn:Eidx; cbn [bind]; [|discriminate].
  intros [= <-]. exists width, labels, idx.
  split; [reflexivity|]. split; [|split; [reflexivity|reflexivity]].
  apply mapM_Forall in Echk.
  eapply Forall_impl; [|exact Echk].
  intros toks [u Hu]. unfold EVELightCurve.check_width in Hu.
  destruct (Nat.ltb (S width) (length toks)) eqn:Elt; [discriminate|].
  apply Nat.ltb_ge in Elt. exact Elt.
Qed.

Lemma parser_on_date (y mo d : Z) (x : string) (dt : datetime) :
  EVELightCurve.parser y mo d x = Ok dt -> on_date y mo d dt.
Proof.
  rewrite parser_unfold.
  destruct (Py.int (Py.slice 0 2 x)) as [h|e]; [|discriminate].
  destruct (Py.int (Py.slice 2 4 x)) as [mi|e]; [|discriminate].
  destruct (Datetime.valid y mo d h mi) eqn:V; [|discriminate].
  intros [= <-]. unfold Datetime.valid in V.
  repeat (apply andb_true_iff in V as [V ?]).
  unfold on_date. cbn [year month day hour minute second]. lia.
Qed.

(** X9: every row of the table lies on the anchor date read from the date
    line, at a whole minute of that day; the parser never rolls over to
    another day. *)
Theorem level_0cs_rows_on_anchor_date (fp : list string)
  (df : DataFrame datetime) (meta : OrderedDict.t string)
  (units : OrderedDict.t unit_t) :
  EVELightCurve.level_0cs fp = Ok (EVELightCurve.Tuple3 df meta units) ->
  exists y mo d,
    EVELightCurve.date_anchor (date_line_of fp) = Ok (y, mo, d) /\
    Forall (on_date y mo d) (index df).
Proof.
  intros Hok.
  destruct (level_0cs_returns _ _ _ _ Hok)
    as (y & mo & d & df0 & _ & Hdate & Hcsv & Hrep & _).
  exists y, mo, d. split; [exact Hdate|].
  destruct (replace_missing_shape _ _ _ Hrep) as (-> & _ & _).
  destruct (read_csv_ok _ _ _ _ Hcsv) as (width & labels & idx & _ & _ & Hidx & ->).
  apply Forall_forall. intros dt Hdt. cbn [index] in Hdt.
  destruct (mapM_In _ _ _ _ Hidx Hdt) as (tok & _ & Hp).
  exact (parser_on_date _ _ _ _ _ Hp).
Qed.

Lemma level_0cs_rows_on_anchor_date_witness :
  exists y mo d,
    EVELightCurve.date_anchor
      (date_line_of (level_0cs_file ["0000 -99 3.2"; "2359 1 2"])) =
      Ok (y, mo, d) /\
    Forall (on_date y mo d)
      (index (frame_of (EVELightCurve.level_0cs
                (level_0cs_file ["0000 -99 3.2"; "2359 1 2"])))).
Proof.
  apply (level_0cs_rows_on_anchor_date
           (level_0cs_file ["0000 -99 3.2"; "2359 1 2"])
           (frame_of (EVELightCurve.level_0cs
              (level_0cs_file ["0000 -99 3.2"; "2359 1 2"])))
           (meta_of (EVELightCurve.level_0cs
              (level_0cs_file ["0000 -99 3.2"; "2359 1 2"])))
           EVELightCurve.units_0cs).
  reflexivity.
Defined.

(** ** The missing-data value in the table *)








(** X11: when the last declaration of the header gives a missing-data
    value that [float] cannot read, the parse raises; no table with the
    value left in place is returned. *)
Theorem unreadable_sentinel_raises (fp : list string) (l : string) (e : exn) :
  last_declaration (header_of fp) = Some l ->
  Float.of_bytes (declared_value l) = Raise e ->
  exists e', EVELightCurve.level_0cs fp = Raise e'.
Proof.
  intros Hlast Hbad. rewrite level_0cs_by_parts.
  destruct (EVELightCurve.build_meta _ _) as [meta|e0]; cbn [bind];
    [|eexists; reflexivity].
  destruct (EVELightCurve.date_anchor _) as [ymd|e0]; cbn [bind];
    [|eexists; reflexivity].
  destruct (EVELightCurve.read_csv _ _ _) as [df0|e0]; cbn [bind];
    [|eexists; reflexivity].
  unfold replace_missing. rewrite Hlast, Hbad. cbn [bind].
  eexists. reflexivity.
Qed.

Lemma unreadable_sentinel_raises_witness :
  exists e',
    EVELightCurve.level_0cs
      [nl "; Missing data: none"; nl "; Column descriptions:";
       nl "; HHMM: time"; nl "; a: first"; nl "; Format:";
       nl "2013 015 01 15"; nl "0000 1"] = Raise e'.
Proof.
  apply (unreadable_sentinel_raises
           [nl "; Missing data: none"; nl "; Column descriptions:";
            nl "; HHMM: time"; nl "; a: first"; nl "; Format:";
            nl "2013 015 01 15"; nl "0000 1"]
           (nl "; Missing data: none") ValueError); reflexivity.
Defined.

(** X12: the metadata and the units of the record are fixed by the header
    lines alone: two files with the same header lines that both parse have
    the same metadata and the same units, whatever their date lines and
    bodies. *)
Theorem record_meta_depends_on_header_only (fp1 fp2 : list string)
  (df1 df2 : DataFrame datetime) (meta1 meta2 : OrderedDict.t string)
  (units1 units2 : OrderedDict.t unit_t) :
  header_of fp1 = header_of fp2 ->
  EVELightCurve.level_0cs fp1 = Ok (EVELightCurve.Tuple3 df1 meta1 units1) ->
  EVELightCurve.level_0cs fp2 = Ok (EVELightCurve.Tuple3 df2 meta2 units2) ->
  meta1 = meta2 /\ units1 = units2.
Proof.
  intros Hhead H1 H2.
  destruct (level_0cs_returns _ _ _ _ H1)
    as (y1 & mo1 & d1 & a1 & Hm1 & _ & _ & _ & ->).
  destruct (level_0cs_returns _ _ _ _ H2)
    as (y2 & mo2 & d2 & a2 & Hm2 & _ & _ & _ & ->).
  rewrite Hhead in Hm1. split; [congruence|reflexivity].
Qed.

Lemma record_meta_depends_on_header_only_witness :
  meta_of (EVELightCurve.level_0cs (level_0cs_file ["0000 1 2"])) =
  meta_of (EVELightCurve.level_0cs (level_0cs_file ["0130 -99 4"; "0131 5 6"])) /\
  EVELightCurve.units_0cs = EVELightCurve.units_0cs.
Proof.
  apply (record_meta_depends_on_header_only
           (level_0cs_file ["0000 1 2"])
           (level_0cs_file ["0130 -99 4"; "0131 5 6"])
           (frame_of (EVELightCurve.level_0cs (level_0cs_file ["0000 1 2"])))
           (frame_of (EVELightCurve.level_0cs
                        (level_0cs_file ["0130 -99 4"; "0131 5 6"]))));
    reflexivity.
Defined.

(** ** File names and titles *)

Example splitext_examples :
  splitext "a.b.txt" = ("a.b", ".txt") /\
  splitext ".bashrc" = (".bashrc", "") /\
  splitext "..x" = ("..x", "") /\
  splitext "dir.x/name" = ("dir.x/name", "") /\
  splitext "x." = ("x", ".") /\
  splitext "LATEST EVE L0CS.txt" = ("LATEST EVE L0CS", ".txt").
Proof. repeat split; reflexivity. Qed.

Lemma contains_char_app (c : ascii) (a b : string) :
  Py.contains (String c EmptyString) (a ++ b) =
  (Py.contains (String c EmptyString) a ||
   Py.contains (String c EmptyString) b)%bool.
Proof.
  induction a as [|x a IH]; [reflexivity|].
  cbn [append]. rewrite !contains_char_cons, IH. apply orb_assoc.
Qed.

Lemma split_last_dot_app (s root ext : string) :
  split_last_dot s = Some (root, ext) -> s = (root ++ ext)%string.
Proof.
  revert root ext. induction s as [|c s IH]; intros root ext; [discriminate|].
  cbn [split_last_dot].
  destruct (split_last_dot s) as [[r e]|].
  - intros [= <- <-]. cbn [append]. rewrite (IH r e eq_refl). reflexivity.
  - destruct (Ascii.eqb c "."); [|discriminate].
    intros [= <- <-]. reflexivity.
Qed.

Lemma splitext_root_no_char (c : ascii) (p : string) :
  Py.contains (String c EmptyString) p = false ->
  Py.contains (String c EmptyString) (fst (splitext p)) = false.
Proof.
  intros H. unfold splitext.
  destruct (split_last_dot p) as [[root ext]|] eqn:E; [|exact H].
  destruct (Py.contains "/" ext); [exact H|].
  destruct (all_dots (Py.basename root)); [exact H|].
  cbn [fst]. apply split_last_dot_app in E. subst p.
  rewrite contains_char_app in H. apply orb_false_iff in H as [H _]. exact H.
Qed.

(** X13: [peek] never replaces a title given by the caller, and a title it
    chooses itself has no underscore: it is the fixed text for several
    columns, the file name without extension and with blanks for
    underscores, the text [EVE Averages], or [EVE] and the column name
    with blanks for underscores. *)
Theorem peek_title_default (filename : option string)
  (data_columns : list label) (column : option string) :
  (forall t r, peek_title filename data_columns column (Some t) = Ok r ->
               r = t) /\
  (forall r, peek_title filename data_columns column None = Ok r ->
             Py.contains "_" r = false).
Proof.
  split.
  - intros t r. unfold peek_title. destruct column as [c|].
    + destruct (existsb _ data_columns); [|discriminate].
      intros [= <-]. reflexivity.
    + intros [= <-]. reflexivity.
  - intros r. unfold peek_title. destruct column as [c|].
    + destruct (existsb _ data_columns); [|discriminate].
      intros [= <-].
      change (Py.contains "_" ("EVE " ++ Py.replace "_" " " c) = false).
      rewrite (contains_char_app "_" "EVE " (Py.replace "_" " " c)).
      rewrite replace_no_char by reflexivity. reflexivity.
    + destruct (Nat.ltb 1 (length data_columns)); [intros [= <-]; reflexivity|].
      destruct filename as [f|]; [|intros [= <-]; reflexivity].
      intros [= <-]. apply splitext_root_no_char, replace_no_char. reflexivity.
Qed.

Lemma peek_title_default_witness :
  "my title" = "my title" /\
  Py.contains "_" "LATEST EVE L0CS DIODES 1m" = false.
Proof.
  destruct (peek_title_default (Some "LATEST_EVE_L0CS_DIODES_1m.txt")
              [Name "fieldA"] None) as [Hgiven Hdefault].
  split.
  - symmetry. apply (Hgiven "my title" "my title"). reflexivity.
  - apply (Hdefault "LATEST EVE L0CS DIODES 1m"). reflexivity.
Defined.

Lemma basename_spec (p : string) :
  exists dir,
    p = (dir ++ Py.basename p)%string /\
    Py.contains "/" (Py.basename p) = false /\
    (dir = EmptyString \/ exists d, dir = (d ++ "/")%string).
Proof.
  induction p as [|c p IH].
  - exists EmptyString. repeat split. left. reflexivity.
  - cbn [Py.basename]. destruct (Py.contains "/" p) eqn:E.
    + destruct IH as (dir & Hp & Hno & Hdir).
      exists (String c dir). split; [cbn [append]; rewrite <- Hp; reflexivity|].
      split; [exact Hno|]. right.
      destruct Hdir as [->|(d & ->)].
      * cbn [append] in Hp. rewrite <- Hp in Hno. congruence.
      * exists (String c d). reflexivity.
    + destruct (Ascii.eqb c "/") eqn:Ec.
      * apply Ascii.eqb_eq in Ec. subst c.
        exists "/"%string. split; [reflexivity|]. split; [exact E|].
        right. exists EmptyString. reflexivity.
      * exists EmptyString. split; [reflexivity|]. split.
        -- rewrite contains_char_cons, Ec, E. reflexivity.
        -- left. reflexivity.
Qed.

(** X14: after every call of [_parse_file] the class attribute [_filename]
    holds the last component of the path: the path is a directory part,
    empty or ending in a slash, followed by the stored name, and the name
    has no slash. *)
Theorem filename_is_last_path_component
  (read_csv_dates : list string -> res (DataFrame datetime))
  (filepath content : string) (w : World) :
  exists name dir,
    EVELightCurve_filename
      (snd (EVELightCurve._parse_file read_csv_dates filepath content w)) =
      Some name /\
    filepath = (dir ++ name)%string /\
    Py.contains "/" name = false /\
    (dir = EmptyString \/ exists d, dir = (d ++ "/")%string).
Proof.
  destruct (basename_spec filepath) as (dir & Hp & Hno & Hdir).
  exists (Py.basename filepath), dir.
  split; [apply parse_file_sets_filename|].
  split; [exact Hp|]. split; [exact Hno|exact Hdir].
Qed.

(** X15: no source name is claimed by both classes, and a request without
    source name is claimed by neither. *)
Theorem datasources_are_exclusive (source : option string) :
  (EVELightCurve.is_datasource_for source &&
   NoRHLightCurve.is_datasource_for source)%bool = false /\
  EVELightCurve.is_datasource_for None = false /\
  NoRHLightCurve.is_datasource_for None = false.
Proof.
  split; [|split; reflexivity].
  unfold EVELightCurve.is_datasource_for, NoRHLightCurve.is_datasource_for.
  destruct (Py.startswith "EVE" _) eqn:E; [|reflexivity].
  cbn [andb].
  apply (startswith_distinct_head "E" "N" "VE" "oRH" _); [discriminate|exact E].
Qed.

(** ** The NoRH parser never returns *)


(** Dividing a positive sample count by a cadence above one truncates to
    less than the count. *)
Lemma truncate_div_above_one (n : Z) (q : Q) :
  0 < n -> (1 < q)%Q ->
  0 <= Float.truncate (inject_Z n / q) < n.
Proof.
  intros Hn Hq. unfold Float.truncate.
  destruct q as [[|p|p] d]; unfold Qlt in Hq; cbn [Qnum Qden] in Hq; try lia.
  unfold Qdiv, Qmult, Qinv, inject_Z. cbn [Qnum Qden].
  split.
  - apply Z.quot_pos; lia.
  - apply Z.quot_lt_upper_bound; nia.
Qed.



(** X26: with at least one sample and a finite cadence above one second,
    the time axis that the parser builds, when it builds one, has fewer
    entries than there are samples. *)
Theorem norh_axis_shorter_above_one
  (parse_time : string -> res Z) (header : NoRHLightCurve.header_t)
  (data : list pyfloat) (v : NoRHLightCurve.hval) (q : Q) (axis : list Z) :
  OrderedDict.get "CDELT1" header = Some v ->
  NoRHLightCurve.np_float v = Ok (Fin q) ->
  (1 < q)%Q ->
  data <> [] ->
  NoRHLightCurve.norh_time parse_time header data = Ok axis ->
  (length axis < length data)%nat.
Proof.
  intros Hget Hfloat Hq Hdata Haxis.
  destruct (norh_time_ok _ _ _ _ Haxis)
    as (a & b & t0 & v' & c & num & sec & _ & _ & _ & Hv & Hc & Hdiv & Hlin
        & ->).
  rewrite Hget in Hv. injection Hv as <-.
  rewrite Hfloat in Hc. injection Hc as <-.
  cbn [Float.int_div] in Hdiv.
  destruct (Qeq_bool q 0); [discriminate|]. injection Hdiv as <-.
  destruct (linspace_length _ _ _ _ Hlin) as (n & Hn & _ & Hn').
  cbn [Float.to_int] in Hn. injection Hn as <-.
  assert (Hpos : 0 < Z.of_nat (length data)).
  { destruct data; [contradiction|]. cbn [length]. lia. }
  pose proof (truncate_div_above_one _ q Hpos Hq) as Hlt.
  rewrite length_map. lia.
Qed.

Lemma norh_axis_shorter_above_one_witness :
  (length (map (Z.add 0) [0; 3000000; 6000000; 9000000]%Z) <
   length (samples 10))%nat.
Proof.
  apply (norh_axis_shorter_above_one (parse_time_at 0)
           (norh_header (NoRHLightCurve.HStr "2.5")) (samples 10)
           (NoRHLightCurve.HStr "2.5") (inject_Z 1 * Float.scale10 25 (0 - 1))).
  - reflexivity.
  - reflexivity.
  - reflexivity.
  - discriminate.
  - reflexivity.
Defined.

(** X18: if one of the header keys [DATE-OBS], [CRVAL1], [CDELT1] is
    absent, the parse raises and no record is returned; for [DATE-OBS],
    which is read first, the exception is [KeyError]. *)
Theorem norh_missing_key_raises
  (parse_time : string -> res Z) (header : NoRHLightCurve.header_t)
  (data : list pyfloat) :
  (OrderedDict.get "DATE-OBS" header = None ->
   NoRHLightCurve.parse parse_time header data = Raise KeyError) /\
  (OrderedDict.get "CRVAL1" header = None ->
   exists e, NoRHLightCurve.parse parse_time header data = Raise e) /\
  (OrderedDict.get "CDELT1" header = None ->
   exists e, NoRHLightCurve.parse parse_time header data = Raise e).
Proof.
  split; [|split].
  - intros H.
    unfold NoRHLightCurve.parse, NoRHLightCurve.norh_time, OrderedDict.item.
    rewrite H. reflexivity.
  - intros H. rewrite parse_unfold.
    destruct (NoRHLightCurve.norh_time parse_time header data) as [axis|e] eqn:E;
      [|exists e; reflexivity].
    destruct (norh_time_ok _ _ _ _ E)
      as (a & b & t0 & v' & c & num & sec & _ & Hb & _). congruence.
  - intros H. rewrite parse_unfold.
    destruct (NoRHLightCurve.norh_time parse_time header data) as [axis|e] eqn:E;
      [|exists e; reflexivity].
    destruct (norh_time_ok _ _ _ _ E)
      as (a & b & t0 & v' & c & num & sec & _ & _ & _ & Hv & _). congruence.
Qed.

Lemma norh_missing_key_raises_witness :
  NoRHLightCurve.parse (parse_time_at 0)
    [("CRVAL1", NoRHLightCurve.HStr "00:00:00");
     ("CDELT1", NoRHLightCurve.HFloat (Fin 1))] (samples 2) = Raise KeyError /\
  (exists e,
     NoRHLightCurve.parse (parse_time_at 0)
       [("DATE-OBS", NoRHLightCurve.HStr "2013-01-15");
        ("CDELT1", NoRHLightCurve.HFloat (Fin 1))] (samples 2) = Raise e) /\
  (exists e,
     NoRHLightCurve.parse (parse_time_at 0)
       [("DATE-OBS", NoRHLightCurve.HStr "2013-01-15");
        ("CRVAL1", NoRHLightCurve.HStr "00:00:00")] (samples 2) = Raise e).
Proof.
  split; [|split].
  - destruct (norh_missing_key_raises (parse_time_at 0)
                [("CRVAL1", NoRHLightCurve.HStr "00:00:00");
                 ("CDELT1", NoRHLightCurve.HFloat (Fin 1))] (samples 2))
      as (H & _ & _).
    apply H. reflexivity.
  - destruct (norh_missing_key_raises (parse_time_at 0)
                [("DATE-OBS", NoRHLightCurve.HStr "2013-01-15");
                 ("CDELT1", NoRHLightCurve.HFloat (Fin 1))] (samples 2))
      as (_ & H & _).
    apply H. reflexivity.
  - destruct (norh_missing_key_raises (parse_time_at 0)
                [("DATE-OBS", NoRHLightCurve.HStr "2013-01-15");
                 ("CRVAL1", NoRHLightCurve.HStr "00:00:00")] (samples 2))
      as (_ & _ & H).
    apply H. reflexivity.
Defined.





Lemma set_last_last (stop d : Q) (y : list Q) :
  y <> [] -> last (NoRHLightCurve.set_last stop y) d = stop.
Proof.
  induction y as [|v y IH]; [congruence|]. intros _.
  destruct y as [|v' y]; [reflexivity|].
  change (NoRHLightCurve.set_last stop (v :: v' :: y))
    with (v :: NoRHLightCurve.set_last stop (v' :: y)).
  assert (Hne : NoRHLightCurve.set_last stop (v' :: y) <> []).
  { intros H. apply (f_equal (@length Q)) in H.
    rewrite set_last_length in H. discriminate. }
  destruct (NoRHLightCurve.set_last stop (v' :: y)) as [|z zs] eqn:E;
    [congruence|].
  change (last (v :: z :: zs) d) with (last (z :: zs) d).
  apply IH. discriminate.
Qed.

Lemma last_map_nonempty {A B : Type} (f : A -> B) (l : list A) (d : A) (d' : B) :
  l <> [] -> last (map f l) d' = f (last l d).
Proof.
  induction l as [|x l IH]; [congruence|]. intros _.
  destruct l as [|y l]; [reflexivity|].
  change (last (map f (x :: y :: l)) d') with (last (map f (y :: l)) d').
  change (last (x :: y :: l) d) with (last (y :: l) d).
  apply IH. discriminate.
Qed.

(** X20: when the parser gets as far as a time axis with at least one
    entry, the first entry is the start time that [parse_time] gave; with
    two entries or more the last one is the start time plus (number of
    samples - 1) seconds: the time axis spans the sample count, whatever
    the cadence card says. *)
Theorem norh_axis_spans_sample_count
  (parse_time : string -> res Z) (header : NoRHLightCurve.header_t)
  (data : list pyfloat) (axis : list Z) :
  NoRHLightCurve.norh_time parse_time header data = Ok axis ->
  axis <> [] ->
  exists a b t0,
    OrderedDict.get "DATE-OBS" header = Some (NoRHLightCurve.HStr a) /\
    OrderedDict.get "CRVAL1" header = Some (NoRHLightCurve.HStr b) /\
    parse_time ((a ++ "T") ++ b)%string = Ok t0 /\
    hd_error axis = Some t0 /\
    ((2 <= length axis)%nat ->
     last axis t0 = t0 + (Z.of_nat (length data) - 1) * 1000000).
Proof.
  intros Hok Hne.
  destruct (norh_time_ok _ _ _ _ Hok)
    as (a & b & t0 & v & c & num & sec & Ha & Hb & Ht & _ & _ & _ & Hlin & ->).
  exists a, b, t0. split; [exact Ha|]. split; [exact Hb|]. split; [exact Ht|].
  unfold NoRHLightCurve.linspace in Hlin.
  destruct (Float.to_int num) as [n|e]; cbn [bind] in Hlin; [|discriminate].
  destruct (n <? 0) eqn:Eneg; [discriminate|]. apply Z.ltb_ge in Eneg.
  destruct (1 <? n) eqn:E1; injection Hlin as <-.
  - apply Z.ltb_lt in E1.
    destruct (Z.to_nat n) as [|[|k]] eqn:En; [lia|lia|].
    unfold NoRHLightCurve.arange. cbn [seq map]. split.
    + change (NoRHLightCurve.set_last ?s (?x :: ?y :: ?l))
        with (x :: NoRHLightCurve.set_last s (y :: l)).
      cbn [map hd_error]. f_equal.
      rewrite (timedelta_whole _ 0); [lia|]. change (Z.of_nat 0) with 0. ring.
    + intros _. rewrite (last_map_nonempty _ _ 0%Q).
      * rewrite set_last_last by discriminate.
        rewrite (timedelta_whole _ (Z.of_nat (length data) - 1));
          [lia|reflexivity].
      * intros H. apply (f_equal (@length Q)) in H.
        rewrite set_last_length in H. discriminate.
  - apply Z.ltb_ge in E1.
    destruct (Z.to_nat n) as [|[|k]] eqn:En; [|clear Hne|lia].
    + exfalso. apply Hne. reflexivity.
    + unfold NoRHLightCurve.arange. cbn [seq map hd_error length].
      split; [|intros H; lia].
      f_equal. rewrite (timedelta_whole _ 0); [lia|].
      change (Z.of_nat 0) with 0. ring.
Qed.

Lemma norh_axis_spans_sample_count_witness :
  exists a b t0,
    OrderedDict.get "DATE-OBS" (norh_header (NoRHLightCurve.HFloat (Fin 2))) =
      Some (NoRHLightCurve.HStr a) /\
    OrderedDict.get "CRVAL1" (norh_header (NoRHLightCurve.HFloat (Fin 2))) =
      Some (NoRHLightCurve.HStr b) /\
    parse_time_at 9 ((a ++ "T") ++ b)%string = Ok t0 /\
    hd_error (map (Z.add 9) [0; 3000000]) = Some t0 /\
    ((2 <= length (map (Z.add 9) [0; 3000000]%Z))%nat ->
     last (map (Z.add 9) [0; 3000000]) t0 =
       t0 + (Z.of_nat (length (samples 4)) - 1) * 1000000).
Proof.
  apply (norh_axis_spans_sample_count (parse_time_at 9)
           (norh_header (NoRHLightCurve.HFloat (Fin 2)))
           (samples 4) (map (Z.add 9) [0; 3000000])).
  - reflexivity.
  - discriminate.
Defined.

(** ** Where field names come from *)

Lemma field_names_origin (header : list string) :
  forall (b : bool) (n : string),
    In n (EVELightCurve.field_names b header) ->
    exists pre l post,
      header = (pre ++ l :: post)%list /\ n = field_name l /\
      is_format l = false /\
      (b = true \/ Exists (fun x => is_column_descriptions x = true) pre).
Proof.
  induction header as [|h header IH]; intros b n Hin; [destruct Hin|].
  rewrite field_names_cons in Hin. apply in_app_or in Hin as [Hin|Hin].
  - destruct (is_format h) eqn:Ef; [destruct Hin|].
    destruct b; [|destruct Hin].
    destruct Hin as [<-|[]].
    exists [], h, header. repeat split; [exact Ef|left; reflexivity].
  - destruct (IH _ _ Hin) as (pre & l & post & -> & -> & Hl & Hb).
    exists (h :: pre), l, post. repeat split; [exact Hl|].
    destruct (is_column_descriptions h) eqn:Ec.
    + right. constructor. exact Ec.
    + destruct (is_format h); destruct Hb as [Hb|Hb];
        try discriminate; try (right; constructor 2; exact Hb).
      left. exact Hb.
Qed.

(** X21: every field name is the name of a header line that does not
    start with [; Format:] and that comes after a line starting with
    [; Column descriptions:]; in particular a header without that marker
    yields no field names. *)
Theorem field_names_come_after_marker (header : list string) (n : string) :
  In n (EVELightCurve.field_names false header) ->
  exists pre l post,
    header = (pre ++ l :: post)%list /\ n = field_name l /\
    is_format l = false /\
    Exists (fun x => is_column_descriptions x = true) pre.
Proof.
  intros Hin.
  destruct (field_names_origin header false n Hin)
    as (pre & l & post & H1 & H2 & H3 & [H4|H4]); [discriminate|].
  exists pre, l, post. repeat split; assumption.
Qed.

Lemma field_names_come_after_marker_witness :
  exists pre l post,
    [nl "; Column descriptions:"; nl "; a: x"; nl "; Format:"; nl "; b: y"] =
      (pre ++ l :: post)%list /\
    "a" = field_name l /\ is_format l = false /\
    Exists (fun x => is_column_descriptions x = true) pre.
Proof.
  apply (field_names_come_after_marker
           [nl "; Column descriptions:"; nl "; a: x"; nl "; Format:";
            nl "; b: y"] "a").
  left. reflexivity.
Defined.

(** ** Dispatch on the leading bytes *)

Lemma first_line_cons (c : ascii) (s : string) :
  first_line (String c s) =
  if Ascii.eqb c "010" then String c EmptyString
  else String c (first_line s).
Proof.
  unfold first_line. cbn [readlines].
  destruct (Ascii.eqb c "010"); [reflexivity|].
  destruct (readlines s); reflexivity.
Qed.

(** A prefix without line feed is a prefix of the file exactly when it is
    a prefix of its first line. *)
Lemma startswith_first_line (p : string) :
  Py.contains LF p = false ->
  forall s, Py.startswith p (first_line s) = Py.startswith p s.
Proof.
  induction p as [|a p IH]; intros Hp s; [reflexivity|].
  unfold LF in Hp. rewrite contains_char_cons in Hp.
  apply orb_false_iff in Hp as [Ha Hp].
  destruct s as [|c s]; [reflexivity|].
  rewrite first_line_cons. destruct (Ascii.eqb c "010") eqn:Ec.
  - apply Ascii.eqb_eq in Ec. subst c.
    rewrite !startswith_cons, Ha. reflexivity.
  - rewrite !startswith_cons, (IH Hp). reflexivity.
Qed.



(** X22: which parser runs is decided by the leading bytes of the file
    alone: [Date] gives the result of the averages reader as a pair, [;]
    gives the result of the level-0CS parser, anything else (the empty
    file included) gives [None]. *)
Theorem dispatch_on_leading_bytes
  (read_csv_dates : list string -> res (DataFrame datetime))
  (filepath content : string) (w : World) :
  fst (EVELightCurve._parse_file read_csv_dates filepath content w) =
  if Py.startswith "Date" content then
    (df <- read_csv_dates (readlines content) ;;
     Ok (EVELightCurve.Tuple2 EmptyString df))
  else if Py.startswith ";" content then
    EVELightCurve.level_0cs (readlines content)
  else Ok EVELightCurve.PyNone.
Proof.
  rewrite parse_file_unfold. cbv zeta. fold (first_line content).
  rewrite (startswith_first_line "Date") by reflexivity.
  rewrite (startswith_first_line ";") by reflexivity.
  destruct (Py.startswith "Date" content); [reflexivity|].
  destruct (Py.startswith ";" content); reflexivity.
Qed.

(** ** The file as header, date line and body *)

Lemma append_empty_r (s : string) : (s ++ EmptyString)%string = s.
Proof.
  induction s as [|c s IH]; [reflexivity|]. cbn [append]. rewrite IH.
  reflexivity.
Qed.

Lemma join_app (l1 l2 : list string) :
  join (l1 ++ l2) = (join l1 ++ join l2)%string.
Proof.
  induction l1 as [|x l1 IH]; [reflexivity|].
  cbn [app join]. rewrite IH.
  induction x as [|c x IHx]; [reflexivity|].
  cbn [append]. rewrite IHx. reflexivity.
Qed.

Lemma join_readlines (s : string) : join (readlines s) = s.
Proof.
  induction s as [|c s IH]; [reflexivity|].
  cbn [readlines]. destruct (Ascii.eqb c "010").
  - cbn [join append]. rewrite IH. reflexivity.
  - destruct (readlines s) as [|l ls]; cbn [join append] in *.
    + rewrite <- IH. reflexivity.
    + rewrite IH. reflexivity.
Qed.

(** X23: the header loop loses no byte: the header lines it captured, the
    line it stopped at and the lines left on the handle, put one after the
    other, are the bytes of the file. *)
Theorem header_date_body_are_the_file (content : string) :
  exists st dline body,
    EVELightCurve.read_header (snd (readline (readlines content)))
      (fst (readline (readlines content)))
      EVELightCurve.header_init = Ok (st, dline, body) /\
    join (EVELightCurve.header st ++ dline :: body) = content.
Proof.
  destruct (read_header_file (readlines content)) as (st & Hrun & Hhead & _).
  exists st. do 2 eexists. split; [exact Hrun|].
  rewrite Hhead.
  pose proof (take_drop_while is_header_line (readlines content)) as Hsplit.
  pose proof (drop_while_head is_header_line (readlines content)) as Hd.
  destruct (drop_while is_header_line (readlines content)) as [|x rest];
    cbn [readline fst snd].
  - rewrite Hd, join_app. cbn [join]. rewrite join_readlines.
    apply append_empty_r.
  - rewrite Hsplit. apply join_readlines.
Qed.

